(** * Horizon start-up configuration and account thresholds

    A shallow embedding of two parts of the Horizon service of
    stellar-go:

    - the command [horizon] (package [main]): the table [configOpts] of
      option descriptors, their registration in [init], and their
      resolution and validation in [initConfig];
    - [PopulateAccountThresholds] of package [resourceadapter].

    Go's process-wide variables ([c], [config], [tlsProvided], the default
    logger, the lines written by the standard logger) are the fields of
    [State]; a function that reads or writes them, or that may end the
    process ([os.Exit], [log.Fatal], a run-time panic), is a computation
    in the monad [M].  What the packages outside this file decide (viper's
    effective values, [url.Parse], [logrus.ParseLevel], [os.OpenFile], the
    schema migration queries) is a field of [World]. *)

From Stdlib Require Import ZArith String Ascii List Lia.
From stdpp Require Import base option gmap strings list pretty.

Local Open Scope Z_scope.
Local Open Scope string_scope.

(** ** Values of the packages the command uses *)

(** A Go [error], by its message. *)
Definition error : Type := string.

(** [net/url.URL], by the parts a parse fills in. *)
Record URL := {
  Scheme : string;
  Host : string;
  Path : string;
  RawQuery : string;
  Fragment : string
}.

(** [logrus.Level]; its zero value is [PanicLevel]. *)
Inductive Level :=
  PanicLevel | FatalLevel | ErrorLevel | WarnLevel | InfoLevel | DebugLevel.

(** [time.Duration]: a signed 64-bit count of nanoseconds. *)
Definition Duration : Type := Z.
Definition Second : Duration := 1000000000.

(** Go's [int] and [uint] on a 64-bit platform. *)
Definition wrap_int64 (z : Z) : Z := (z + 2 ^ 63) mod 2 ^ 64 - 2 ^ 63.
Definition uint_of_int (z : Z) : Z := z mod 2 ^ 64.

(** [throttled.Rate] as built by [throttled.PerHour n], and
    [throttled.RateQuota]. *)
Inductive Rate := PerHour (n : Z).
Record RateQuota := { MaxRate : Rate; MaxBurst : Z }.

(** An [*os.File] opened for appending, by its name. *)
Inductive File := AppendTo (name : string).

#[global] Instance URL_eq_dec : EqDecision URL.
Proof. solve_decision. Defined.
#[global] Instance Level_eq_dec : EqDecision Level.
Proof. solve_decision. Defined.
#[global] Instance Rate_eq_dec : EqDecision Rate.
Proof. solve_decision. Defined.
#[global] Instance RateQuota_eq_dec : EqDecision RateQuota.
Proof. solve_decision. Defined.

(** ** [horizon.Config]

    The fields and their types are those of the composite literal that
    [initConfig] assigns to [config]: a pointer field ([RateLimit],
    [FriendbotURL]) is [None] when nil. *)
#[projections(primitive)]
Record Config := {
  DatabaseURL : string;
  StellarCoreDatabaseURL : string;
  StellarCoreURL : string;
  Port : Z;
  MaxDBConnections : Z;
  SSEUpdateFrequency : Duration;
  ConnectionTimeout : Duration;
  RateLimit : option RateQuota;
  RateLimitRedisKey : string;
  RedisURL : string;
  FriendbotURL : option URL;
  LogLevel : Level;
  LogFile : string;
  MaxPathLength : Z;
  NetworkPassphrase : string;
  SentryDSN : string;
  LogglyToken : string;
  LogglyTag : string;
  TLSCert : string;
  TLSKey : string;
  Ingest : bool;
  HistoryRetentionCount : Z;
  StaleThreshold : Z;
  SkipCursorUpdate : bool;
  EnableAssetStats : bool
}.

(** The zero value of [horizon.Config]. *)
Definition zeroConfig : Config :=
  {| DatabaseURL := ""; StellarCoreDatabaseURL := ""; StellarCoreURL := "";
     Port := 0; MaxDBConnections := 0;
     SSEUpdateFrequency := 0; ConnectionTimeout := 0;
     RateLimit := None; RateLimitRedisKey := ""; RedisURL := "";
     FriendbotURL := None; LogLevel := PanicLevel; LogFile := "";
     MaxPathLength := 0; NetworkPassphrase := ""; SentryDSN := "";
     LogglyToken := ""; LogglyTag := ""; TLSCert := ""; TLSKey := "";
     Ingest := false; HistoryRetentionCount := 0; StaleThreshold := 0;
     SkipCursorUpdate := false; EnableAssetStats := false |}.

(** Assignment to one field. *)
Definition set_DatabaseURL (v : string) (k : Config) : Config :=
  let '(Build_Config x0 x1 x2 x3 x4 x5 x6 x7 x8 x9 x10 x11 x12
      x13 x14 x15 x16 x17 x18 x19 x20 x21 x22 x23 x24) := k in
  Build_Config v x1 x2 x3 x4 x5 x6 x7 x8 x9 x10 x11 x12
    x13 x14 x15 x16 x17 x18 x19 x20 x21 x22 x23 x24.
Definition set_StellarCoreDatabaseURL (v : string) (k : Config) : Config :=
  let '(Build_Config x0 x1 x2 x3 x4 x5 x6 x7 x8 x9 x10 x11 x12
      x13 x14 x15 x16 x17 x18 x19 x20 x21 x22 x23 x24) := k in
  Build_Config x0 v x2 x3 x4 x5 x6 x7 x8 x9 x10 x11 x12
    x13 x14 x15 x16 x17 x18 x19 x20 x21 x22 x23 x24.
Definition set_StellarCoreURL (v : string) (k : Config) : Config :=
  let '(Build_Config x0 x1 x2 x3 x4 x5 x6 x7 x8 x9 x10 x11 x12
      x13 x14 x15 x16 x17 x18 x19 x20 x21 x22 x23 x24) := k in
  Build_Config x0 x1 v x3 x4 x5 x6 x7 x8 x9 x10 x11 x12
    x13 x14 x15 x16 x17 x18 x19 x20 x21 x22 x23 x24.
Definition set_Port (v : Z) (k : Config) : Config :=
  let '(Build_Config x0 x1 x2 x3 x4 x5 x6 x7 x8 x9 x10 x11 x12
      x13 x14 x15 x16 x17 x18 x19 x20 x21 x22 x23 x24) := k in
  Build_Config x0 x1 x2 v x4 x5 x6 x7 x8 x9 x10 x11 x12
    x13 x14 x15 x16 x17 x18 x19 x20 x21 x22 x23 x24.
Definition set_MaxDBConnections (v : Z) (k : Config) : Config :=
  let '(Build_Config x0 x1 x2 x3 x4 x5 x6 x7 x8 x9 x10 x11 x12
      x13 x14 x15 x16 x17 x18 x19 x20 x21 x22 x23 x24) := k in
  Build_Config x0 x1 x2 x3 v x5 x6 x7 x8 x9 x10 x11 x12
    x13 x14 x15 x16 x17 x18 x19 x20 x21 x22 x23 x24.
Definition set_SSEUpdateFrequency (v : Duration) (k : Config) : Config :=
  let '(Build_Config x0 x1 x2 x3 x4 x5 x6 x7 x8 x9 x10 x11 x12
      x13 x14 x15 x16 x17 x18 x19 x20 x21 x22 x23 x24) := k in
  Build_Config x0 x1 x2 x3 x4 v x6 x7 x8 x9 x10 x11 x12
    x13 x14 x15 x16 x17 x18 x19 x20 x21 x22 x23 x24.
Definition set_ConnectionTimeout (v : Duration) (k : Config) : Config :=
  let '(Build_Config x0 x1 x2 x3 x4 x5 x6 x7 x8 x9 x10 x11 x12
      x13 x14 x15 x16 x17 x18 x19 x20 x21 x22 x23 x24) := k in
  Build_Config x0 x1 x2 x3 x4 x5 v x7 x8 x9 x10 x11 x12
    x13 x14 x15 x16 x17 x18 x19 x20 x21 x22 x23 x24.
Definition set_RateLimit (v : option RateQuota) (k : Config) : Config :=
  let '(Build_Config x0 x1 x2 x3 x4 x5 x6 x7 x8 x9 x10 x11 x12
      x13 x14 x15 x16 x17 x18 x19 x20 x21 x22 x23 x24) := k in
  Build_Config x0 x1 x2 x3 x4 x5 x6 v x8 x9 x10 x11 x12
    x13 x14 x15 x16 x17 x18 x19 x20 x21 x22 x23 x24.
Definition set_RateLimitRedisKey (v : string) (k : Config) : Config :=
  let '(Build_Config x0 x1 x2 x3 x4 x5 x6 x7 x8 x9 x10 x11 x12
      x13 x14 x15 x16 x17 x18 x19 x20 x21 x22 x23 x24) := k in
  Build_Config x0 x1 x2 x3 x4 x5 x6 x7 v x9 x10 x11 x12
    x13 x14 x15 x16 x17 x18 x19 x20 x21 x22 x23 x24.
Definition set_RedisURL (v : string) (k : Config) : Config :=
  let '(Build_Config x0 x1 x2 x3 x4 x5 x6 x7 x8 x9 x10 x11 x12
      x13 x14 x15 x16 x17 x18 x19 x20 x21 x22 x23 x24) := k in
  Build_Config x0 x1 x2 x3 x4 x5 x6 x7 x8 v x10 x11 x12
    x13 x14 x15 x16 x17 x18 x19 x20 x21 x22 x23 x24.
Definition set_FriendbotURL (v : option URL) (k : Config) : Config :=
  let '(Build_Config x0 x1 x2 x3 x4 x5 x6 x7 x8 x9 x10 x11 x12
      x13 x14 x15 x16 x17 x18 x19 x20 x21 x22 x23 x24) := k in
  Build_Config x0 x1 x2 x3 x4 x5 x6 x7 x8 x9 v x11 x12
    x13 x14 x15 x16 x17 x18 x19 x20 x21 x22 x23 x24.
Definition set_LogLevel (v : Level) (k : Config) : Config :=
  let '(Build_Config x0 x1 x2 x3 x4 x5 x6 x7 x8 x9 x10 x11 x12
      x13 x14 x15 x16 x17 x18 x19 x20 x21 x22 x23 x24) := k in
  Build_Config x0 x1 x2 x3 x4 x5 x6 x7 x8 x9 x10 v x12
    x13 x14 x15 x16 x17 x18 x19 x20 x21 x22 x23 x24.
Definition set_LogFile (v : string) (k : Config) : Config :=
  let '(Build_Config x0 x1 x2 x3 x4 x5 x6 x7 x8 x9 x10 x11 x12
      x13 x14 x15 x16 x17 x18 x19 x20 x21 x22 x23 x24) := k in
  Build_Config x0 x1 x2 x3 x4 x5 x6 x7 x8 x9 x10 x11 v
    x13 x14 x15 x16 x17 x18 x19 x20 x21 x22 x23 x24.
Definition set_MaxPathLength (v : Z) (k : Config) : Config :=
  let '(Build_Config x0 x1 x2 x3 x4 x5 x6 x7 x8 x9 x10 x11 x12
      x13 x14 x15 x16 x17 x18 x19 x20 x21 x22 x23 x24) := k in
  Build_Config x0 x1 x2 x3 x4 x5 x6 x7 x8 x9 x10 x11 x12
    v x14 x15 x16 x17 x18 x19 x20 x21 x22 x23 x24.
Definition set_NetworkPassphrase (v : string) (k : Config) : Config :=
  let '(Build_Config x0 x1 x2 x3 x4 x5 x6 x7 x8 x9 x10 x11 x12
      x13 x14 x15 x16 x17 x18 x19 x20 x21 x22 x23 x24) := k in
  Build_Config x0 x1 x2 x3 x4 x5 x6 x7 x8 x9 x10 x11 x12
    x13 v x15 x16 x17 x18 x19 x20 x21 x22 x23 x24.
Definition set_SentryDSN (v : string) (k : Config) : Config :=
  let '(Build_Config x0 x1 x2 x3 x4 x5 x6 x7 x8 x9 x10 x11 x12
      x13 x14 x15 x16 x17 x18 x19 x20 x21 x22 x23 x24) := k in
  Build_Config x0 x1 x2 x3 x4 x5 x6 x7 x8 x9 x10 x11 x12
    x13 x14 v x16 x17 x18 x19 x20 x21 x22 x23 x24.
Definition set_LogglyToken (v : string) (k : Config) : Config :=
  let '(Build_Config x0 x1 x2 x3 x4 x5 x6 x7 x8 x9 x10 x11 x12
      x13 x14 x15 x16 x17 x18 x19 x20 x21 x22 x23 x24) := k in
  Build_Config x0 x1 x2 x3 x4 x5 x6 x7 x8 x9 x10 x11 x12
    x13 x14 x15 v x17 x18 x19 x20 x21 x22 x23 x24.
Definition set_LogglyTag (v : string) (k : Config) : Config :=
  let '(Build_Config x0 x1 x2 x3 x4 x5 x6 x7 x8 x9 x10 x11 x12
      x13 x14 x15 x16 x17 x18 x19 x20 x21 x22 x23 x24) := k in
  Build_Config x0 x1 x2 x3 x4 x5 x6 x7 x8 x9 x10 x11 x12
    x13 x14 x15 x16 v x18 x19 x20 x21 x22 x23 x24.
Definition set_TLSCert (v : string) (k : Config) : Config :=
  let '(Build_Config x0 x1 x2 x3 x4 x5 x6 x7 x8 x9 x10 x11 x12
      x13 x14 x15 x16 x17 x18 x19 x20 x21 x22 x23 x24) := k in
  Build_Config x0 x1 x2 x3 x4 x5 x6 x7 x8 x9 x10 x11 x12
    x13 x14 x15 x16 x17 v x19 x20 x21 x22 x23 x24.
Definition set_TLSKey (v : string) (k : Config) : Config :=
  let '(Build_Config x0 x1 x2 x3 x4 x5 x6 x7 x8 x9 x10 x11 x12
      x13 x14 x15 x16 x17 x18 x19 x20 x21 x22 x23 x24) := k in
  Build_Config x0 x1 x2 x3 x4 x5 x6 x7 x8 x9 x10 x11 x12
    x13 x14 x15 x16 x17 x18 v x20 x21 x22 x23 x24.
Definition set_Ingest (v : bool) (k : Config) : Config :=
  let '(Build_Config x0 x1 x2 x3 x4 x5 x6 x7 x8 x9 x10 x11 x12
      x13 x14 x15 x16 x17 x18 x19 x20 x21 x22 x23 x24) := k in
  Build_Config x0 x1 x2 x3 x4 x5 x6 x7 x8 x9 x10 x11 x12
    x13 x14 x15 x16 x17 x18 x19 v x21 x22 x23 x24.
Definition set_HistoryRetentionCount (v : Z) (k : Config) : Config :=
  let '(Build_Config x0 x1 x2 x3 x4 x5 x6 x7 x8 x9 x10 x11 x12
      x13 x14 x15 x16 x17 x18 x19 x20 x21 x22 x23 x24) := k in
  Build_Config x0 x1 x2 x3 x4 x5 x6 x7 x8 x9 x10 x11 x12
    x13 x14 x15 x16 x17 x18 x19 x20 v x22 x23 x24.
Definition set_StaleThreshold (v : Z) (k : Config) : Config :=
  let '(Build_Config x0 x1 x2 x3 x4 x5 x6 x7 x8 x9 x10 x11 x12
      x13 x14 x15 x16 x17 x18 x19 x20 x21 x22 x23 x24) := k in
  Build_Config x0 x1 x2 x3 x4 x5 x6 x7 x8 x9 x10 x11 x12
    x13 x14 x15 x16 x17 x18 x19 x20 x21 v x23 x24.
Definition set_SkipCursorUpdate (v : bool) (k : Config) : Config :=
  let '(Build_Config x0 x1 x2 x3 x4 x5 x6 x7 x8 x9 x10 x11 x12
      x13 x14 x15 x16 x17 x18 x19 x20 x21 x22 x23 x24) := k in
  Build_Config x0 x1 x2 x3 x4 x5 x6 x7 x8 x9 x10 x11 x12
    x13 x14 x15 x16 x17 x18 x19 x20 x21 x22 v x24.
Definition set_EnableAssetStats (v : bool) (k : Config) : Config :=
  let '(Build_Config x0 x1 x2 x3 x4 x5 x6 x7 x8 x9 x10 x11 x12
      x13 x14 x15 x16 x17 x18 x19 x20 x21 x22 x23 x24) := k in
  Build_Config x0 x1 x2 x3 x4 x5 x6 x7 x8 x9 x10 x11 x12
    x13 x14 x15 x16 x17 x18 x19 x20 x21 x22 x23 v.

(** ** Pointers into [c]

    The [configKey] of a descriptor is an [interface{}] that holds a
    pointer; a type assertion [co.configKey.( *T )] succeeds only when the
    pointer held has exactly the type [*T].  The fields of [c] are grouped
    by their Go type, so that a pointer to one carries its type. *)
Inductive stringField :=
  fDatabaseURL | fStellarCoreDatabaseURL | fStellarCoreURL
| fRateLimitRedisKey | fRedisURL | fLogFile | fNetworkPassphrase
| fSentryDSN | fLogglyToken | fLogglyTag | fTLSCert | fTLSKey.
Inductive intField := fPort | fMaxDBConnections.
Inductive uintField := fMaxPathLength | fHistoryRetentionCount | fStaleThreshold.
Inductive boolField := fIngest | fSkipCursorUpdate | fEnableAssetStats.
Inductive durationField := fSSEUpdateFrequency | fConnectionTimeout.

Inductive ptr :=
| PString (f : stringField)          (* *string *)
| PInt (f : intField)                (* *int *)
| PUint (f : uintField)              (* *uint *)
| PBool (f : boolField)              (* *bool *)
| PDuration (f : durationField)      (* *time.Duration *)
| PLevel                             (* *logrus.Level : &c.LogLevel *)
| PRateQuotaPtr                      (* **throttled.RateQuota : &c.RateLimit *)
| PURLPtr                            (* **url.URL : &c.FriendbotURL *)
| PURL (x : string).                 (* *url.URL : a url.URL variable x *)

Definition storeString (f : stringField) (v : string) : Config -> Config :=
  match f with
  | fDatabaseURL => set_DatabaseURL v
  | fStellarCoreDatabaseURL => set_StellarCoreDatabaseURL v
  | fStellarCoreURL => set_StellarCoreURL v
  | fRateLimitRedisKey => set_RateLimitRedisKey v
  | fRedisURL => set_RedisURL v
  | fLogFile => set_LogFile v
  | fNetworkPassphrase => set_NetworkPassphrase v
  | fSentryDSN => set_SentryDSN v
  | fLogglyToken => set_LogglyToken v
  | fLogglyTag => set_LogglyTag v
  | fTLSCert => set_TLSCert v
  | fTLSKey => set_TLSKey v
  end.

Definition loadString (f : stringField) : Config -> string :=
  match f with
  | fDatabaseURL => DatabaseURL
  | fStellarCoreDatabaseURL => StellarCoreDatabaseURL
  | fStellarCoreURL => StellarCoreURL
  | fRateLimitRedisKey => RateLimitRedisKey
  | fRedisURL => RedisURL
  | fLogFile => LogFile
  | fNetworkPassphrase => NetworkPassphrase
  | fSentryDSN => SentryDSN
  | fLogglyToken => LogglyToken
  | fLogglyTag => LogglyTag
  | fTLSCert => TLSCert
  | fTLSKey => TLSKey
  end.

Definition storeInt (f : intField) (v : Z) : Config -> Config :=
  match f with
  | fPort => set_Port v
  | fMaxDBConnections => set_MaxDBConnections v
  end.

Definition storeUint (f : uintField) (v : Z) : Config -> Config :=
  match f with
  | fMaxPathLength => set_MaxPathLength v
  | fHistoryRetentionCount => set_HistoryRetentionCount v
  | fStaleThreshold => set_StaleThreshold v
  end.

Definition loadUint (f : uintField) : Config -> Z :=
  match f with
  | fMaxPathLength => MaxPathLength
  | fHistoryRetentionCount => HistoryRetentionCount
  | fStaleThreshold => StaleThreshold
  end.

Definition storeBool (f : boolField) (v : bool) : Config -> Config :=
  match f with
  | fIngest => set_Ingest v
  | fSkipCursorUpdate => set_SkipCursorUpdate v
  | fEnableAssetStats => set_EnableAssetStats v
  end.

Definition storeDuration (f : durationField) (v : Duration) : Config -> Config :=
  match f with
  | fSSEUpdateFrequency => set_SSEUpdateFrequency v
  | fConnectionTimeout => set_ConnectionTimeout v
  end.

(** ** Option descriptors *)

(** The dynamic type and value of [flagDefault]. *)
Inductive flagDefault :=
| DString (s : string)
| DInt (z : Z)
| DBool (b : bool)
| DUint (z : Z).

(** The functions the table gives as [customSetValue]. *)
Inductive customSetter :=
  SetDuration | SetURL | SetLogLevel | SetLogFile | SetRateLimit | IncrementTLSFlag.

(** [configOption]; the field [flagType] of the source is never assigned
    or read and is left out. *)
Record configOption := {
  name : string;
  envVar : string;
  flagDefault_ : flagDefault;
  required : bool;
  usage : string;
  customSetValue : option customSetter;
  configKey : option ptr
}.

(** ** The process state and the monad of the command *)

(** What a [Printf] verb is given. *)
Inductive fmtArg :=
| AString (s : string)
| AInt (z : Z)
| AUint (z : Z)
| ABool (b : bool)
| ADuration (d : Duration)
| ALevel (l : Level)
| AURL (u : option URL)
| ARateQuota (q : option RateQuota)
| AStrings (l : list string)
| AError (e : error).

(** One line written by the standard logger [stdLog]. *)
Inductive logLine :=
| Printf (format : string) (args : list fmtArg)
| Print (args : list fmtArg).

(** [log.DefaultLogger]: its [Level] and its [Logger.Out] ([None]: the
    stream it had at start). *)
Record Logger := { logger_Level : Level; logger_Out : option File }.

(** [*horizon.App], by the configuration it was made from. *)
Inductive App := MkApp (cfg : Config).

Record State := {
  c : Config;
  config : Config;
  app : option App;
  tlsProvided : Z;
  DefaultLogger : Logger;
  stdLog : list logLine;
  urlVars : gmap string URL
}.

Definition set_c (f : Config -> Config) (s : State) : State :=
  {| c := f (c s); config := config s; app := app s;
     tlsProvided := tlsProvided s; DefaultLogger := DefaultLogger s;
     stdLog := stdLog s; urlVars := urlVars s |}.
Definition set_config (v : Config) (s : State) : State :=
  {| c := c s; config := v; app := app s;
     tlsProvided := tlsProvided s; DefaultLogger := DefaultLogger s;
     stdLog := stdLog s; urlVars := urlVars s |}.
Definition set_app (v : option App) (s : State) : State :=
  {| c := c s; config := config s; app := v;
     tlsProvided := tlsProvided s; DefaultLogger := DefaultLogger s;
     stdLog := stdLog s; urlVars := urlVars s |}.
Definition set_tlsProvided (v : Z) (s : State) : State :=
  {| c := c s; config := config s; app := app s;
     tlsProvided := v; DefaultLogger := DefaultLogger s;
     stdLog := stdLog s; urlVars := urlVars s |}.
Definition set_DefaultLogger (f : Logger -> Logger) (s : State) : State :=
  {| c := c s; config := config s; app := app s;
     tlsProvided := tlsProvided s; DefaultLogger := f (DefaultLogger s);
     stdLog := stdLog s; urlVars := urlVars s |}.
Definition write_stdLog (l : logLine) (s : State) : State :=
  {| c := c s; config := config s; app := app s;
     tlsProvided := tlsProvided s; DefaultLogger := DefaultLogger s;
     stdLog := stdLog s ++ [l]; urlVars := urlVars s |}.
Definition set_urlVar (x : string) (u : URL) (s : State) : State :=
  {| c := c s; config := config s; app := app s;
     tlsProvided := tlsProvided s; DefaultLogger := DefaultLogger s;
     stdLog := stdLog s; urlVars := <[x := u]> (urlVars s) |}.

Definition with_Level (l : Level) (g : Logger) : Logger :=
  {| logger_Level := l; logger_Out := logger_Out g |}.
Definition with_Out (f : File) (g : Logger) : Logger :=
  {| logger_Level := logger_Level g; logger_Out := Some f |}.

(** The state when [main] starts: every package-level variable at its
    initial value. *)
Definition startState (g : Logger) : State :=
  {| c := zeroConfig; config := zeroConfig; app := None; tlsProvided := 0;
     DefaultLogger := g; stdLog := []; urlVars := ∅ |}.

(** How a run ends early: [os.Exit code], or a run-time panic. *)
Inductive panic := InterfaceConversion | IndexOutOfRange.
Inductive halt := Exit (code : Z) | Panicked (p : panic).

Inductive result (A : Type) :=
| Ok (a : A) (s : State)
| Halt (h : halt) (s : State).
Arguments Ok {A} a s.
Arguments Halt {A} h s.

Definition M (A : Type) : Type := State -> result A.

#[global] Instance M_ret : MRet M := λ A a s, Ok a s.
#[global] Instance M_bind : MBind M := λ A B f m s,
  match m s with
  | Ok a s' => f a s'
  | Halt h s' => Halt h s'
  end.

Definition gets {A} (f : State -> A) : M A := λ s, Ok (f s) s.
Definition modify (f : State -> State) : M unit := λ s, Ok tt (f s).
Definition os_Exit {A} (code : Z) : M A := λ s, Halt (Exit code) s.
Definition throw {A} (p : panic) : M A := λ s, Halt (Panicked p) s.

Definition stdLog_Printf (format : string) (args : list fmtArg) : M unit :=
  modify (write_stdLog (Printf format args)).
(** [log.Fatalf] is [Printf] followed by [os.Exit(1)]; [log.Fatal] is
    [Print] followed by [os.Exit(1)]. *)
Definition stdLog_Fatalf {A} (format : string) (args : list fmtArg) : M A :=
  modify (write_stdLog (Printf format args));; os_Exit 1.
Definition stdLog_Fatal {A} (args : list fmtArg) : M A :=
  modify (write_stdLog (Print args));; os_Exit 1.

(** [for i := range l { f(&l[i]) }]. *)
Fixpoint forRange {A} (l : list A) (f : A -> M unit) : M unit :=
  match l with
  | [] => mret tt
  | x :: l' => f x;; forRange l' f
  end.

(** The type assertions [key.( *T )]. *)
Definition asString (key : option ptr) : M stringField :=
  match key with Some (PString f) => mret f | _ => throw InterfaceConversion end.
Definition asInt (key : option ptr) : M intField :=
  match key with Some (PInt f) => mret f | _ => throw InterfaceConversion end.
Definition asUint (key : option ptr) : M uintField :=
  match key with Some (PUint f) => mret f | _ => throw InterfaceConversion end.
Definition asBool (key : option ptr) : M boolField :=
  match key with Some (PBool f) => mret f | _ => throw InterfaceConversion end.
Definition asDuration (key : option ptr) : M durationField :=
  match key with Some (PDuration f) => mret f | _ => throw InterfaceConversion end.
Definition asLevel (key : option ptr) : M unit :=
  match key with Some PLevel => mret tt | _ => throw InterfaceConversion end.
Definition asRateQuotaPtr (key : option ptr) : M unit :=
  match key with Some PRateQuotaPtr => mret tt | _ => throw InterfaceConversion end.
Definition asURL (key : option ptr) : M string :=
  match key with Some (PURL x) => mret x | _ => throw InterfaceConversion end.

(** ** What the other packages decide *)
Record World := {
  viper_GetString : string -> string;
  viper_GetInt : string -> Z;
  viper_GetBool : string -> bool;
  url_Parse : string -> URL + error;
  logrus_ParseLevel : string -> Level + error;
  os_OpenFile : string -> File + error;
  schema_GetMigrationsUp : string -> list string;
  schema_GetNumMigrationsDown : string -> Z;
  apkg_Version : string;
  horizon_NewApp : Config -> App + error
}.

(** The quotation mark, for the format strings that hold one. *)
Definition dq : string := String (ascii_of_nat 34) EmptyString.

(** ** Package [main] of the command *)
Section Resolution.
Context (w : World).

(** The line of [require]. *)
Definition requireFormat : string :=
  "Invalid config: %s is blank. Please specify --%s on the command line or set the %s environment variable.".

(** [require] checks that a required string configuration option is not
    empty, raising a user error if it is. *)
Definition require (co : configOption) : M unit :=
  if required co && bool_decide (viper_GetString w (name co) = "") then
    stdLog_Fatalf requireFormat
      [AString (name co); AString (name co); AString (envVar co)]
  else mret tt.

(** [setSimpleValue] sets the value of a descriptor's [configKey], based
    on the type of its default. *)
Definition setSimpleValue (co : configOption) : M unit :=
  match configKey co with
  | None => mret tt
  | Some _ =>
      match flagDefault_ co with
      | DString _ =>
          f ← asString (configKey co);
          modify (set_c (storeString f (viper_GetString w (name co))))
      | DInt _ =>
          f ← asInt (configKey co);
          modify (set_c (storeInt f (viper_GetInt w (name co))))
      | DBool _ =>
          f ← asBool (configKey co);
          modify (set_c (storeBool f (viper_GetBool w (name co))))
      | DUint _ =>
          f ← asUint (configKey co);
          modify (set_c (storeUint f (uint_of_int (viper_GetInt w (name co)))))
      end
  end.

(** [setDuration] converts a command line int to a duration. *)
Definition setDuration (co : configOption) : M unit :=
  f ← asDuration (configKey co);
  modify (set_c (storeDuration f (wrap_int64 (viper_GetInt w (name co) * Second)))).

(** [setURL] converts a command line string to a URL. *)
Definition setURL (co : configOption) : M unit :=
  let urlString := viper_GetString w (name co) in
  if bool_decide (urlString ≠ "") then
    match url_Parse w urlString with
    | inr err =>
        stdLog_Fatalf "Unable to parse URL: %s/%v" [AString urlString; AError err]
    | inl urlType =>
        x ← asURL (configKey co);
        modify (set_urlVar x urlType)
    end
  else mret tt.

(** [setLogLevel] validates and sets the log level globally and in the
    final config. *)
Definition setLogLevel (co : configOption) : M unit :=
  match logrus_ParseLevel w (viper_GetString w (name co)) with
  | inr _ =>
      stdLog_Fatalf "Could not parse log-level: %v"
        [AString (viper_GetString w (name co))]
  | inl ll =>
      modify (set_DefaultLogger (with_Level ll));;
      asLevel (configKey co);;
      modify (set_c (set_LogLevel ll))
  end.

(** [setLogFile] configures a log file for writing. *)
Definition setLogFile (co : configOption) : M unit :=
  let lf := viper_GetString w "log-file" in
  if bool_decide (lf ≠ "") then
    match os_OpenFile w lf with
    | inl logFile =>
        modify (set_DefaultLogger (with_Out logFile));;
        f ← asString (configKey co);
        modify (set_c (storeString f lf))
    | inr _ => stdLog_Fatal [AString "Failed to log to file"]
    end
  else mret tt.

(** [setRateLimit] converts a command line rate limit, and sets rate and
    burst limiting in the final config. *)
Definition setRateLimit (co : configOption) : M unit :=
  let perHourRateLimit := viper_GetInt w (name co) in
  if bool_decide (perHourRateLimit ≠ 0) then
    let rateLimit :=
      Some {| MaxRate := PerHour perHourRateLimit; MaxBurst := 100 |} in
    asRateQuotaPtr (configKey co);;
    modify (set_c (set_RateLimit rateLimit))
  else mret tt.

(** [incrementTLSFlag] tracks TLS command line options for later
    validation, and stores the provided TLS value. *)
Definition incrementTLSFlag (co : configOption) : M unit :=
  let tls := viper_GetString w (name co) in
  if bool_decide (tls ≠ "") then
    modify (λ s, set_tlsProvided (wrap_int64 (tlsProvided s + 1)) s);;
    f ← asString (configKey co);
    modify (set_c (storeString f tls))
  else mret tt.

(** [validateTLS] ensures that both a TLS cert and key are provided, if
    either is provided. *)
Definition validateTLS (tlsProvided : Z) : M unit :=
  if bool_decide (tlsProvided = 1) then
    stdLog_Fatal [AString "Invalid TLS config: both key and cert must be configured"]
  else mret tt.

(** The call [co.customSetValue(co)]. *)
Definition callCustom (f : customSetter) (co : configOption) : M unit :=
  match f with
  | SetDuration => setDuration co
  | SetURL => setURL co
  | SetLogLevel => setLogLevel co
  | SetLogFile => setLogFile co
  | SetRateLimit => setRateLimit co
  | IncrementTLSFlag => incrementTLSFlag co
  end.

(** [setValue] sets a value in the global config, using a custom
    function, if one was provided.  Its [error] result is always nil. *)
Definition setValue (co : configOption) : M unit :=
  match customSetValue co with
  | Some f => callCustom f co
  | None =>
      match configKey co with
      | Some _ => setSimpleValue co
      | None => mret tt
      end
  end.
End Resolution.

(** [network.TestNetworkPassphrase]: a constant of package [network], the
    passphrase of the SDF test network.  Only its being non-empty matters
    to the resolution. *)
Definition TestNetworkPassphrase : string := "Test SDF Network ; September 2015".

(** The table of option descriptors, as the source declares it. *)
Definition configOpts : list configOption := [
  {| name := "db-url"; envVar := "DATABASE_URL"; configKey := Some (PString fDatabaseURL);
     flagDefault_ := DString ""; required := true; customSetValue := None;
     usage := "horizon postgres database to connect with" |};
  {| name := "stellar-core-db-url"; envVar := "STELLAR_CORE_DATABASE_URL";
     configKey := Some (PString fStellarCoreDatabaseURL);
     flagDefault_ := DString ""; required := true; customSetValue := None;
     usage := "stellar-core postgres database to connect with" |};
  {| name := "stellar-core-url"; envVar := ""; configKey := Some (PString fStellarCoreURL);
     flagDefault_ := DString ""; required := true; customSetValue := None;
     usage := "stellar-core to connect with (for http commands)" |};
  {| name := "port"; envVar := ""; configKey := Some (PInt fPort);
     flagDefault_ := DInt 8000; required := false; customSetValue := None;
     usage := "tcp port to listen on for http requests" |};
  {| name := "max-db-connections"; envVar := ""; configKey := Some (PInt fMaxDBConnections);
     flagDefault_ := DInt 20; required := false; customSetValue := None;
     usage := "max db connections (per DB), may need to be increased when responses are slow but DB CPU is normal" |};
  {| name := "sse-update-frequency"; envVar := ""; configKey := Some (PDuration fSSEUpdateFrequency);
     flagDefault_ := DInt 5; required := false; customSetValue := Some SetDuration;
     usage := "defines how often streams should check if there's a new ledger (in seconds), may need to increase in case of big number of streams" |};
  {| name := "connection-timeout"; envVar := ""; configKey := Some (PDuration fConnectionTimeout);
     flagDefault_ := DInt 55; required := false; customSetValue := Some SetDuration;
     usage := "defines the timeout of connection after which 504 response will be sent or stream will be closed, if Horizon is behind a load balancer with idle connection timeout, this should be set to a few seconds less that idle timeout" |};
  {| name := "per-hour-rate-limit"; envVar := ""; configKey := Some PRateQuotaPtr;
     flagDefault_ := DInt 3600; required := false; customSetValue := Some SetRateLimit;
     usage := "max count of requests allowed in a one hour period, by remote ip address" |};
  {| name := "rate-limit-redis-key"; envVar := ""; configKey := Some (PString fRateLimitRedisKey);
     flagDefault_ := DString ""; required := false; customSetValue := None;
     usage := "redis key for storing rate limit data, useful when deploying a cluster of Horizons, ignored when redis-url is empty" |};
  {| name := "redis-url"; envVar := ""; configKey := Some (PString fRedisURL);
     flagDefault_ := DString ""; required := false; customSetValue := None;
     usage := "redis to connect with, for rate limiting" |};
  {| name := "friendbot-url"; envVar := ""; configKey := Some PURLPtr;
     flagDefault_ := DString ""; required := false; customSetValue := Some SetURL;
     usage := "friendbot service to redirect to" |};
  {| name := "log-level"; envVar := ""; configKey := Some PLevel;
     flagDefault_ := DString "info"; required := false; customSetValue := Some SetLogLevel;
     usage := "minimum log severity (debug, info, warn, error) to log" |};
  {| name := "log-file"; envVar := ""; configKey := Some (PString fLogFile);
     flagDefault_ := DString ""; required := false; customSetValue := Some SetLogFile;
     usage := "Name of the file where logs will be saved (leave empty to send logs to stdout)" |};
  {| name := "max-path-length"; envVar := ""; configKey := Some (PUint fMaxPathLength);
     flagDefault_ := DUint 4; required := false; customSetValue := None;
     usage := "the maximum number of assets on the path in `/paths` endpoint" |};
  {| name := "network-passphrase"; envVar := ""; configKey := Some (PString fNetworkPassphrase);
     flagDefault_ := DString TestNetworkPassphrase; required := true; customSetValue := None;
     usage := "Override the network passphrase" |};
  {| name := "sentry-dsn"; envVar := ""; configKey := Some (PString fSentryDSN);
     flagDefault_ := DString ""; required := false; customSetValue := None;
     usage := "Sentry URL to which panics and errors should be reported" |};
  {| name := "loggly-token"; envVar := ""; configKey := Some (PString fLogglyToken);
     flagDefault_ := DString ""; required := false; customSetValue := None;
     usage := "Loggly token, used to configure log forwarding to loggly" |};
  {| name := "loggly-tag"; envVar := ""; configKey := Some (PString fLogglyTag);
     flagDefault_ := DString "horizon"; required := false; customSetValue := None;
     usage := "Tag to be added to every loggly log event" |};
  {| name := "tls-cert"; envVar := ""; configKey := Some (PString fTLSCert);
     flagDefault_ := DString ""; required := false; customSetValue := Some IncrementTLSFlag;
     usage := "TLS certificate file to use for securing connections to horizon" |};
  {| name := "tls-key"; envVar := ""; configKey := Some (PString fTLSKey);
     flagDefault_ := DString ""; required := false; customSetValue := Some IncrementTLSFlag;
     usage := "TLS private key file to use for securing connections to horizon" |};
  {| name := "ingest"; envVar := ""; configKey := Some (PBool fIngest);
     flagDefault_ := DBool false; required := false; customSetValue := None;
     usage := "causes this horizon process to ingest data from stellar-core into horizon's db" |};
  {| name := "history-retention-count"; envVar := ""; configKey := Some (PUint fHistoryRetentionCount);
     flagDefault_ := DUint 0; required := false; customSetValue := None;
     usage := "the minimum number of ledgers to maintain within horizon's history tables.  0 signifies an unlimited number of ledgers will be retained" |};
  {| name := "history-stale-threshold"; envVar := ""; configKey := Some (PUint fStaleThreshold);
     flagDefault_ := DUint 0; required := false; customSetValue := None;
     usage := "the maximum number of ledgers the history db is allowed to be out of date from the connected stellar-core db before horizon considers history stale" |};
  {| name := "skip-cursor-update"; envVar := ""; configKey := Some (PBool fSkipCursorUpdate);
     flagDefault_ := DBool false; required := false; customSetValue := None;
     usage := "causes the ingester to skip reporting the last imported ledger state to stellar-core" |};
  {| name := "enable-asset-stats"; envVar := ""; configKey := Some (PBool fEnableAssetStats);
     flagDefault_ := DBool false; required := false; customSetValue := None;
     usage := "enables asset stats during the ingestion and expose `/assets` endpoint,  Enabling it has a negative impact on CPU" |}
].

(** ** The flag and environment registries

    [pflag] and [viper] are libraries the command uses; what follows is
    the part of their documented behaviour that [init] relies on.  Keys
    are the option names, which the table writes in lower case already. *)
Module pflag.

(** A registered flag: its default, its help text, and, when the flag was
    given on the command line, the text of the value that pflag parsed for
    it ([Changed]: the flag's [Value.String()]).  Parsing the command line
    is pflag's own work and is not part of this development: [init]
    leaves every flag unchanged. *)
Record Flag := {
  DefValue : flagDefault;
  Usage : string;
  Changed : option string
}.

Abbreviation FlagSet := (gmap string Flag).

(** [fs.String], [fs.Int], [fs.Uint], [fs.Bool]: one new flag. *)
Definition declare (name : string) (value : flagDefault) (usage : string)
    (fs : FlagSet) : FlagSet :=
  <[name := {| DefValue := value; Usage := usage; Changed := None |}]> fs.

End pflag.

(** [cast.ToString] on the values a default may hold. *)
Definition cast_ToString (v : flagDefault) : string :=
  match v with
  | DString s => s
  | DInt z => pretty z
  | DUint z => pretty z
  | DBool b => if b then "true" else "false"
  end.

Module viper.

Record t := {
  defaults : gmap string flagDefault;
  env : gmap string string;
  pflags : pflag.FlagSet
}.

Definition New : t := {| defaults := ∅; env := ∅; pflags := ∅ |}.

Definition SetDefault (key : string) (value : flagDefault) (v : t) : t :=
  {| defaults := <[key := value]> (defaults v); env := env v; pflags := pflags v |}.

Definition BindEnv (key envkey : string) (v : t) : t :=
  {| defaults := defaults v; env := <[key := envkey]> (env v); pflags := pflags v |}.

(** [BindPFlags] binds every flag of the set under its own name. *)
Definition BindPFlags (flags : pflag.FlagSet) (v : t) : t :=
  {| defaults := defaults v; env := env v; pflags := flags ∪ pflags v |}.

(** An environment variable counts as set when it is not empty. *)
Definition getEnv (environ : gmap string string) (envkey : string) : option string :=
  match environ !! envkey with
  | Some val => if bool_decide (val = "") then None else Some val
  | None => None
  end.

(** The lookup order: a flag given on the command line, then the bound
    environment variable, then a default set with [SetDefault], then the
    default of the flag itself. *)
Definition find (v : t) (environ : gmap string string) (key : string)
    : option flagDefault :=
  match pflags v !! key with
  | Some {| pflag.Changed := Some s |} => Some (DString s)
  | _ =>
      match env v !! key ≫= getEnv environ with
      | Some val => Some (DString val)
      | None =>
          match defaults v !! key with
          | Some d => Some d
          | None => pflag.DefValue <$> pflags v !! key
          end
      end
  end.

Definition GetString (v : t) (environ : gmap string string) (key : string) : string :=
  from_option cast_ToString "" (find v environ key).

End viper.

(** Modelled from the spec: [strutils.KebabToConstantCase] is declared in
    package [support/strutils], outside the files embedded here; the spec
    gives it as the conversion of kebab-case to upper snake-case: every
    letter in upper case, every hyphen an underscore. *)
Definition upperSnakeChar (a : ascii) : ascii :=
  let n := nat_of_ascii a in
  if bool_decide (n = 45)%nat then ascii_of_nat 95
  else if bool_decide (97 ≤ n ≤ 122)%nat then ascii_of_nat (n - 32)
  else a.

Fixpoint KebabToConstantCase (kebab : string) : string :=
  match kebab with
  | EmptyString => EmptyString
  | String a rest => String (upperSnakeChar a) (KebabToConstantCase rest)
  end.

(** [setFlag] sets the correct pflag type, based on the type of the
    descriptor's default; the flags are those of
    [rootCmd.PersistentFlags()]. *)
Definition setFlag (co : configOption) (flags : pflag.FlagSet) : pflag.FlagSet :=
  match flagDefault_ co with
  | DString _ => pflag.declare (name co) (flagDefault_ co) (usage co) flags
  | DInt _ => pflag.declare (name co) (flagDefault_ co) (usage co) flags
  | DBool _ => pflag.declare (name co) (flagDefault_ co) (usage co) flags
  | DUint _ => pflag.declare (name co) (flagDefault_ co) (usage co) flags
  end.

(** What [init] builds: the table with its [envVar]s filled in, viper's
    registry, and the flags of [rootCmd]. *)
Record Registry := {
  opts : list configOption;
  registry : viper.t;
  rootFlags : pflag.FlagSet
}.

Definition with_envVar (e : string) (co : configOption) : configOption :=
  {| name := name co; envVar := e; flagDefault_ := flagDefault_ co;
     required := required co; usage := usage co;
     customSetValue := customSetValue co; configKey := configKey co |}.

(** One turn of the loop of [init] over [configOpts]: the descriptor as
    the turn leaves it, and the registries. *)
Definition initOption (co : configOption) (v : viper.t) (flags : pflag.FlagSet)
    : configOption * viper.t * pflag.FlagSet :=
  let '(co, v) :=
    if bool_decide (envVar co = "") then
      let co := with_envVar (KebabToConstantCase (name co)) co in
      (co, viper.BindEnv (name co) (envVar co) v)
    else (co, v) in
  (co, v, setFlag co flags).

Fixpoint initOptions (l : list configOption) (v : viper.t) (flags : pflag.FlagSet)
    : list configOption * viper.t * pflag.FlagSet :=
  match l with
  | [] => ([], v, flags)
  | co :: l' =>
      let '(co', v', flags') := initOption co v flags in
      let '(rest, v'', flags'') := initOptions l' v' flags' in
      (co' :: rest, v'', flags'')
  end.

(** [init]. *)
Definition init : Registry :=
  let v := viper.SetDefault "port" (DInt 8000) viper.New in
  let v := viper.SetDefault "history-retention-count" (DInt 0) v in
  let '(opts, v, flags) := initOptions configOpts v ∅ in
  {| opts := opts; registry := viper.BindPFlags flags v; rootFlags := flags |}.

(** ** Resolution at start-up *)
Section Startup.
Context (w : World).

(** The format of the lines that [initConfig] writes about each field:
    the field's name, then its value in [c] and in [config], each between
    quotation marks and followed by its type. *)
Definition fieldFormat (field verb : string) : string :=
  field +:+ "    " +:+ dq +:+ verb +:+ dq +:+ "(%T)    " +:+ dq +:+ verb +:+ dq +:+ "(%T)".

Definition printField (field verb : string) (arg : Config -> fmtArg) : M unit :=
  c ← gets c;
  config ← gets config;
  stdLog_Printf (fieldFormat field verb) [arg c; arg c; arg config; arg config].

(** Check all required args were provided. *)
Definition checkRequired : M unit :=
  forRange (opts init) (require w).

(** The lines of the migration gate. *)
Definition upCountFormat : string :=
  "There are %v migrations to apply in the " +:+ dq +:+ "up" +:+ dq +:+ " direction.".
Definition upListFormat : string := "The necessary migrations are: %v".
Definition upCommandFormat : string :=
  "A database migration is required to run this version (%v) of Horizon. Run "
  +:+ dq +:+ "horizon db migrate up" +:+ dq
  +:+ " to update your DB. Consult the Changelog (https://github.com/stellar/horizon/blob/master/CHANGELOG.md) for more information.".
Definition downNoticeFormat : string :=
  "A database migration DOWN to an earlier version of the schema is required to run this version (%v) of Horizon. Consult the Changelog (https://github.com/stellar/horizon/blob/master/CHANGELOG.md) for more information.".
Definition downCommandFormat : string :=
  "In order to migrate the database DOWN, using the HIGHEST version number of Horizon you have installed (not this binary), run "
  +:+ dq +:+ "horizon db migrate down %v" +:+ dq +:+ ".".

(** The schema must need no migration, up or down. *)
Definition checkMigrations : M unit :=
  let migrationsToApplyUp := schema_GetMigrationsUp w (viper_GetString w "db-url") in
  (if bool_decide (Z.of_nat (length migrationsToApplyUp) > 0) then
     stdLog_Printf upCountFormat [AInt (Z.of_nat (length migrationsToApplyUp))];;
     stdLog_Printf upListFormat [AStrings migrationsToApplyUp];;
     stdLog_Printf upCommandFormat [AString (apkg_Version w)];;
     os_Exit 1
   else mret tt);;
  let nMigrationsDown := schema_GetNumMigrationsDown w (viper_GetString w "db-url") in
  if bool_decide (nMigrationsDown > 0) then
    stdLog_Printf downNoticeFormat [AString (apkg_Version w)];;
    stdLog_Printf downCommandFormat [AInt nMigrationsDown];;
    os_Exit 1
  else mret tt.

(** Run validation checks: every descriptor sets its value. *)
Definition setValues : M unit :=
  forRange (opts init) (setValue w).

(** Validate log level. *)
Definition checkLogLevel : M Level :=
  match logrus_ParseLevel w (viper_GetString w "log-level") with
  | inr _ =>
      stdLog_Fatalf "Could not parse log-level: %v"
        [AString (viper_GetString w "log-level")]
  | inl ll =>
      modify (set_DefaultLogger (with_Level ll));;
      mret ll
  end.

(** Write to a log file, if a file name was provided. *)
Definition openLogFile : M string :=
  let lf := viper_GetString w "log-file" in
  (if bool_decide (lf ≠ "") then
     match os_OpenFile w lf with
     | inl logFile => modify (set_DefaultLogger (with_Out logFile))
     | inr _ => stdLog_Fatal [AString "Failed to log to file"]
     end
   else mret tt);;
  mret lf.

(** Ensure that both a TLS cert and key are provided, if either is
    provided. *)
Definition checkTLSPair : M (string * string) :=
  let cert := viper_GetString w "tls-cert" in
  let key := viper_GetString w "tls-key" in
  (if bool_decide (cert ≠ "") && bool_decide (key = "") then
     stdLog_Fatal [AString "Invalid TLS config: key not configured"]
   else if bool_decide (cert = "") && bool_decide (key ≠ "") then
     stdLog_Fatal [AString "Invalid TLS config: cert not configured"]
   else mret tt);;
  mret (cert, key).

(** Validate the friendbotURL is a URL, if it was provided. *)
Definition parseFriendbotURL : M (option URL) :=
  let friendbotURLString := viper_GetString w "friendbot-url" in
  if bool_decide (friendbotURLString ≠ "") then
    match url_Parse w friendbotURLString with
    | inr err =>
        stdLog_Fatalf "Unable to parse URL: %s/%v" [AString friendbotURLString; AError err]
    | inl u => mret (Some u)
    end
  else mret None.

(** Set rate and burst limiting if provided. *)
Definition rateLimitOf (perHourRateLimit : Z) : option RateQuota :=
  if bool_decide (perHourRateLimit ≠ 0) then
    Some {| MaxRate := PerHour perHourRateLimit; MaxBurst := 100 |}
  else None.

(** The composite literal assigned to [config]. *)
Definition assemble (ll : Level) (lf cert key : string)
    (friendbotURL : option URL) (rateLimit : option RateQuota) : Config :=
  {| DatabaseURL := viper_GetString w "db-url";
     StellarCoreDatabaseURL := viper_GetString w "stellar-core-db-url";
     StellarCoreURL := viper_GetString w "stellar-core-url";
     Port := viper_GetInt w "port";
     MaxDBConnections := viper_GetInt w "max-db-connections";
     SSEUpdateFrequency := wrap_int64 (viper_GetInt w "sse-update-frequency" * Second);
     ConnectionTimeout := wrap_int64 (viper_GetInt w "connection-timeout" * Second);
     RateLimit := rateLimit;
     RateLimitRedisKey := viper_GetString w "rate-limit-redis-key";
     RedisURL := viper_GetString w "redis-url";
     FriendbotURL := friendbotURL;
     LogLevel := ll;
     LogFile := lf;
     MaxPathLength := uint_of_int (viper_GetInt w "max-path-length");
     NetworkPassphrase := viper_GetString w "network-passphrase";
     SentryDSN := viper_GetString w "sentry-dsn";
     LogglyToken := viper_GetString w "loggly-token";
     LogglyTag := viper_GetString w "loggly-tag";
     TLSCert := cert;
     TLSKey := key;
     Ingest := viper_GetBool w "ingest";
     HistoryRetentionCount := uint_of_int (viper_GetInt w "history-retention-count");
     StaleThreshold := uint_of_int (viper_GetInt w "history-stale-threshold");
     SkipCursorUpdate := viper_GetBool w "skip-cursor-update";
     EnableAssetStats := viper_GetBool w "enable-asset-stats" |}.

(** For testing purposes only: the lines written about each field. *)
Definition printFields : M unit :=
  printField "DatabaseURL" "%s" (λ k, AString (DatabaseURL k));;
  printField "StellarCoreDatabaseURL" "%s" (λ k, AString (StellarCoreDatabaseURL k));;
  printField "StellarCoreURL" "%s" (λ k, AString (StellarCoreURL k));;
  printField "Port" "%d" (λ k, AInt (Port k));;
  printField "MaxDBConnections" "%d" (λ k, AInt (MaxDBConnections k));;
  printField "SSEUpdateFrequency" "%d" (λ k, ADuration (SSEUpdateFrequency k));;
  printField "ConnectionTimeout" "%d" (λ k, ADuration (ConnectionTimeout k));;
  printField "RateLimit" "%+v" (λ k, ARateQuota (RateLimit k));;
  printField "RateLimitRedisKey" "%s" (λ k, AString (RateLimitRedisKey k));;
  printField "RedisURL" "%s" (λ k, AString (RedisURL k));;
  printField "FriendbotURL" "%s" (λ k, AURL (FriendbotURL k));;
  printField "LogLevel" "%s" (λ k, ALevel (LogLevel k));;
  printField "LogFile" "%s" (λ k, AString (LogFile k));;
  printField "MaxPathLength" "%d" (λ k, AUint (MaxPathLength k));;
  printField "NetworkPassphrase" "%s" (λ k, AString (NetworkPassphrase k));;
  printField "SentryDSN" "%s" (λ k, AString (SentryDSN k));;
  printField "LogglyToken" "%s" (λ k, AString (LogglyToken k));;
  printField "LogglyTag" "%s" (λ k, AString (LogglyTag k));;
  printField "TLSCert" "%s" (λ k, AString (TLSCert k));;
  printField "TLSKey" "%s" (λ k, AString (TLSKey k));;
  printField "Ingest" "%t" (λ k, ABool (Ingest k));;
  printField "HistoryRetentionCount" "%d" (λ k, AUint (HistoryRetentionCount k));;
  printField "StaleThreshold" "%d" (λ k, AUint (StaleThreshold k));;
  printField "SkipCursorUpdate" "%t" (λ k, ABool (SkipCursorUpdate k)).

(** [initConfig]. *)
Definition initConfig : M unit :=
  checkRequired;;
  checkMigrations;;
  setValues;;
  ll ← checkLogLevel;
  (t ← gets tlsProvided; validateTLS t);;
  lf ← openLogFile;
  '(cert, key) ← checkTLSPair;
  friendbotURL ← parseFriendbotURL;
  let rateLimit := rateLimitOf (viper_GetInt w "per-hour-rate-limit") in
  modify (set_config (assemble ll lf cert key friendbotURL rateLimit));;
  printFields;;
  stdLog_Fatal [AString "Died here"].

(** [initApp]. *)
Definition initApp : M App :=
  initConfig;;
  config ← gets config;
  match horizon_NewApp w config with
  | inr err => stdLog_Fatal [AString err]
  | inl a => modify (set_app (Some a));; mret a
  end.

End Startup.

(** ** Package [resourceadapter] *)
Module resourceadapter.
Section Thresholds.
(** Whatever [AccountThresholds] holds besides the three thresholds. *)
Context {R : Type}.

(** [AccountThresholds] of package [protocols/horizon]. *)
Record AccountThresholds := {
  LowThreshold : Byte.byte;
  MedThreshold : Byte.byte;
  HighThreshold : Byte.byte;
  otherFields : R
}.

(** [core.Account], by the one column the function reads. *)
Record Account := { Thresholds : list Byte.byte }.

(** How a call ends: it returns, or an index is out of range; either way
    [dest] is as the call left it. *)
Inductive populated :=
| Returned (dest : AccountThresholds)
| OutOfRange (dest : AccountThresholds).

Definition PopulateAccountThresholds (dest : AccountThresholds) (row : Account)
    : populated :=
  match Thresholds row !! 1%nat with
  | None => OutOfRange dest
  | Some t1 =>
      let dest := {| LowThreshold := t1; MedThreshold := MedThreshold dest;
                     HighThreshold := HighThreshold dest;
                     otherFields := otherFields dest |} in
      match Thresholds row !! 2%nat with
      | None => OutOfRange dest
      | Some t2 =>
          let dest := {| LowThreshold := LowThreshold dest; MedThreshold := t2;
                         HighThreshold := HighThreshold dest;
                         otherFields := otherFields dest |} in
          match Thresholds row !! 3%nat with
          | None => OutOfRange dest
          | Some t3 =>
              Returned {| LowThreshold := LowThreshold dest;
                          MedThreshold := MedThreshold dest;
                          HighThreshold := t3;
                          otherFields := otherFields dest |}
          end
      end
  end.

End Thresholds.
Arguments AccountThresholds : clear implicits.
Arguments populated : clear implicits.
End resourceadapter.

(** ** Sample worlds *)

(** An association list read as a function, [d] where the key is absent. *)
Fixpoint assoc {A} (l : list (string * A)) (d : A) (key : string) : A :=
  match l with
  | [] => d
  | (k, v) :: l' => if bool_decide (k = key) then v else assoc l' d key
  end.

(** A parser that takes a text for a URL when it has no blank first
    character, and puts it whole in [Path]. *)
Definition sampleParse (s : string) : URL + error :=
  match s with
  | String " " _ => inr "first path segment in URL cannot contain colon"
  | _ => inl {| Scheme := ""; Host := ""; Path := s; RawQuery := ""; Fragment := "" |}
  end.

Definition sampleLevel (s : string) : Level + error :=
  if bool_decide (s = "debug") then inl DebugLevel
  else if bool_decide (s = "info") then inl InfoLevel
  else if bool_decide (s = "warn") then inl WarnLevel
  else if bool_decide (s = "error") then inl ErrorLevel
  else inr "not a valid logrus Level".

(** A deployment: the effective values of the options as texts and
    numbers, and the pending migrations. *)
Definition sampleWorld (strs : list (string * string)) (ints : list (string * Z))
    (up : list string) (down : Z) : World :=
  {| viper_GetString := assoc strs "";
     viper_GetInt := assoc ints 0;
     viper_GetBool := λ _, false;
     url_Parse := sampleParse;
     logrus_ParseLevel := sampleLevel;
     os_OpenFile := λ f, inl (AppendTo f);
     schema_GetMigrationsUp := λ _, up;
     schema_GetNumMigrationsDown := λ _, down;
     apkg_Version := "0.15.0";
     horizon_NewApp := λ k, inl (MkApp k) |}.

(** The texts of a deployment in which every required option is given. *)
Definition goodStrings : list (string * string) :=
  [("db-url", "postgres://localhost/horizon");
   ("stellar-core-db-url", "postgres://localhost/core");
   ("stellar-core-url", "http://localhost:11626");
   ("network-passphrase", TestNetworkPassphrase);
   ("log-level", "info");
   ("loggly-tag", "horizon")].

Definition goodInts : list (string * Z) :=
  [("port", 8000); ("max-db-connections", 20); ("sse-update-frequency", 5);
   ("connection-timeout", 55); ("per-hour-rate-limit", 3600);
   ("max-path-length", 4)].

Definition goodWorld : World := sampleWorld goodStrings goodInts [] 0.

Definition quietLogger : Logger := {| logger_Level := InfoLevel; logger_Out := None |}.

(** * Properties *)

(** ** Running computations *)

Lemma bind_Ok {A B} (m : M A) (f : A -> M B) s a s' :
  m s = Ok a s' -> (m ≫= f) s = f a s'.
Proof. intros E. unfold mbind, M_bind. now rewrite E. Qed.

Lemma bind_Halt {A B} (m : M A) (f : A -> M B) s h s' :
  m s = Halt h s' -> (m ≫= f) s = Halt h s'.
Proof. intros E. unfold mbind, M_bind. now rewrite E. Qed.

Lemma bind_assoc {A B C} (m : M A) (f : A -> M B) (g : B -> M C) s :
  ((m ≫= f) ≫= g) s = (m ≫= λ a, f a ≫= g) s.
Proof. unfold mbind, M_bind. now destruct (m s). Qed.

(** A computation that ends the process from every state. *)
Definition halts {A} (m : M A) : Prop :=
  forall s, exists h s', m s = Halt h s'.

Lemma halts_bind_l {A B} (m : M A) (f : A -> M B) :
  halts m -> halts (m ≫= f).
Proof.
  intros H s. destruct (H s) as (h & s' & E).
  exists h, s'. now apply bind_Halt.
Qed.

Lemma halts_bind_r {A B} (m : M A) (f : A -> M B) :
  (forall a, halts (f a)) -> halts (m ≫= f).
Proof.
  intros H s. unfold mbind, M_bind.
  destruct (m s) as [a s'|h s']; [apply H | eauto].
Qed.

Lemma halts_Fatal {A} args : halts (@stdLog_Fatal A args).
Proof. intros s. eexists _, _. reflexivity. Qed.

Lemma halts_Fatalf {A} fmt args : halts (@stdLog_Fatalf A fmt args).
Proof. intros s. eexists _, _. reflexivity. Qed.

Lemma Fatal_run {A} args s :
  @stdLog_Fatal A args s = Halt (Exit 1) (write_stdLog (Print args) s).
Proof. reflexivity. Qed.

Lemma Fatalf_run {A} fmt args s :
  @stdLog_Fatalf A fmt args s = Halt (Exit 1) (write_stdLog (Printf fmt args) s).
Proof. reflexivity. Qed.

Lemma write_stdLog_neq l s : write_stdLog l s <> s.
Proof.
  intros E. apply (f_equal stdLog) in E. simpl in E.
  apply (f_equal length) in E. rewrite length_app in E. simpl in E. lia.
Qed.

(** ** Required options (C9) *)

(** C9.  For every descriptor, [require] ends the process exactly when the
    descriptor is required and the effective text of its option is empty;
    it then exits with status 1 after writing one line whose arguments
    are the option's name (for the flag) and its environment variable;
    in every other case, and always when [required] is false, it returns
    and changes nothing. *)
Theorem require_fatal_exactly_when_required_and_blank (w : World)
    (co : configOption) (s : State) :
  ((exists h s', require w co s = Halt h s')
     <-> required co = true /\ viper_GetString w (name co) = "")
  /\ (forall h s', require w co s = Halt h s' ->
        h = Exit 1 /\
        s' = write_stdLog
               (Printf requireFormat
                       [AString (name co); AString (name co); AString (envVar co)]) s)
  /\ (~ (required co = true /\ viper_GetString w (name co) = "") ->
        require w co s = Ok tt s)
  /\ (required co = false -> require w co s = Ok tt s).
Proof.
  unfold require.
  destruct (required co); simpl.
  - case_bool_decide as Hb; rewrite ?Fatalf_run.
    + split_and!; [split; [auto | eauto] | intros h s' [= <- <-]; auto | tauto | discriminate].
    + split_and!; [split; [intros (h & s' & [=]) | tauto] | intros h s' [=] | auto | auto].
  - split_and!; [split; [intros (h & s' & [=]) | intros [[=] _]] | intros h s' [=] | auto | auto].
Qed.

(** ** The migration gate (C7) *)

(** [mentions part text]: [part] occurs in [text]. *)
Definition mentions (part text : string) : bool :=
  bool_decide (is_Some (index 0 part text)).

(** The gate, case by case. *)
Lemma checkMigrations_run (w : World) (s : State) :
  checkMigrations w s =
    let up := schema_GetMigrationsUp w (viper_GetString w "db-url") in
    let down := schema_GetNumMigrationsDown w (viper_GetString w "db-url") in
    if bool_decide (Z.of_nat (length up) > 0) then
      Halt (Exit 1)
        (write_stdLog (Printf upCommandFormat [AString (apkg_Version w)])
           (write_stdLog (Printf upListFormat [AStrings up])
              (write_stdLog (Printf upCountFormat [AInt (Z.of_nat (length up))]) s)))
    else if bool_decide (down > 0) then
      Halt (Exit 1)
        (write_stdLog (Printf downCommandFormat [AInt down])
           (write_stdLog (Printf downNoticeFormat [AString (apkg_Version w)]) s))
    else Ok tt s.
Proof.
  unfold checkMigrations. cbn zeta.
  repeat case_bool_decide; reflexivity.
Qed.

(** C7, as the code has it.  With [up] the pending migrations in the up
    direction and [down] the number pending in the down direction (a
    count, so not negative): when [up] is not empty the gate exits with
    status 1 after writing the number of migrations, their list and the
    line with the command [horizon db migrate up], and nothing else; when
    [down > 0] the gate exits with status 1 too, and if [up] is empty the
    lines written are the notice and the command [horizon db migrate down]
    with [down] as its argument; the gate returns, with the state
    unchanged, exactly when both counts are zero. *)
Theorem migration_gate (w : World) (s : State)
    (Hdown : 0 <= schema_GetNumMigrationsDown w (viper_GetString w "db-url")) :
  let up := schema_GetMigrationsUp w (viper_GetString w "db-url") in
  let down := schema_GetNumMigrationsDown w (viper_GetString w "db-url") in
  (Z.of_nat (length up) > 0 ->
     checkMigrations w s =
       Halt (Exit 1)
         (write_stdLog (Printf upCommandFormat [AString (apkg_Version w)])
            (write_stdLog (Printf upListFormat [AStrings up])
               (write_stdLog (Printf upCountFormat [AInt (Z.of_nat (length up))]) s))))
  /\ (down > 0 -> exists s', checkMigrations w s = Halt (Exit 1) s')
  /\ (Z.of_nat (length up) = 0 -> down > 0 ->
        checkMigrations w s =
          Halt (Exit 1)
            (write_stdLog (Printf downCommandFormat [AInt down])
               (write_stdLog (Printf downNoticeFormat [AString (apkg_Version w)]) s)))
  /\ ((exists s', checkMigrations w s = Ok tt s')
        <-> Z.of_nat (length up) = 0 /\ down = 0)
  /\ (forall s', checkMigrations w s = Ok tt s' -> s' = s)
  /\ mentions "horizon db migrate up" upCommandFormat = true
  /\ mentions "horizon db migrate down %v" downCommandFormat = true.
Proof.
  intros up down. rewrite checkMigrations_run. cbn zeta. fold up down.
  assert (Hlen : 0 <= Z.of_nat (length up)) by lia.
  fold down in Hdown.
  split_and!; [| | | | | reflexivity | reflexivity].
  - intros Hup. repeat case_bool_decide; try reflexivity; lia.
  - intros Hd. repeat case_bool_decide; try (eexists; reflexivity). lia.
  - intros Hup Hd. repeat case_bool_decide; try reflexivity; lia.
  - split.
    + intros [s' E]. revert E. repeat case_bool_decide; try discriminate.
      intros _. lia.
    + intros [Hup Hd]. exists s. repeat case_bool_decide; try reflexivity; lia.
  - intros s'. repeat case_bool_decide; try discriminate. now intros [= <-].
Qed.

(** Two migrations pending in the up direction: the gate exits after
    citing them. *)
Lemma migration_gate_witness :
  checkMigrations
    (sampleWorld goodStrings goodInts ["8_create_asset_stats_table.sql"; "9_add_header_xdr.sql"] 0)
    (startState quietLogger)
  = Halt (Exit 1)
      {| c := zeroConfig; config := zeroConfig; app := None; tlsProvided := 0;
         DefaultLogger := quietLogger;
         stdLog :=
           [Printf upCountFormat [AInt 2];
            Printf upListFormat
              [AStrings ["8_create_asset_stats_table.sql"; "9_add_header_xdr.sql"]];
            Printf upCommandFormat [AString "0.15.0"]];
         urlVars := ∅ |}.
Proof.
  refine (proj1 (migration_gate _ (startState quietLogger) _) _); simpl; lia.
Defined.

(** A deployment with two migrations pending up and three pending
    down. *)
Definition bothPendingWorld : World :=
  sampleWorld goodStrings goodInts
    ["8_create_asset_stats_table.sql"; "9_add_header_xdr.sql"] 3.

(** C7, as the specification states it, fails: a pending downgrade is not
    always cited.  With two migrations pending up and three pending down,
    the gate exits at the check of the up direction: the three lines
    written are those of the up direction, and neither the notice nor the
    command of the downgrade is among them. *)
Lemma downgrade_not_cited_when_up_pending :
  schema_GetNumMigrationsDown bothPendingWorld
    (viper_GetString bothPendingWorld "db-url") = 3
  /\ exists s',
       checkMigrations bothPendingWorld (startState quietLogger) = Halt (Exit 1) s'
       /\ stdLog s' =
          [Printf upCountFormat [AInt 2];
           Printf upListFormat
             [AStrings ["8_create_asset_stats_table.sql"; "9_add_header_xdr.sql"]];
           Printf upCommandFormat [AString "0.15.0"]]
       /\ Forall (λ l, match l with
                       | Printf format _ =>
                           mentions "horizon db migrate down" format = false
                       | Print _ => True
                       end) (stdLog s').
Proof.
  split; [reflexivity |].
  eexists. split; [vm_compute; reflexivity |].
  split; [reflexivity |].
  repeat constructor.
Qed.

(** ** The rate limit (C6) *)

(** C6.  For every integer [n] that the option holds: with [n = 0],
    [setRateLimit] returns and leaves every field as it was (so a
    [RateLimit] that was nil stays nil), and the limit that [initConfig]
    assembles is nil; with [n <> 0], [setRateLimit] stores, and
    [initConfig] assembles, the quota of rate [n] per hour and burst
    100. *)
Theorem rate_limit_resolver (w : World) (co : configOption) (s : State) (n : Z)
    (Hkey : configKey co = Some PRateQuotaPtr)
    (Hn : viper_GetInt w (name co) = n) :
  (n = 0 ->
     setRateLimit w co s = Ok tt s /\ rateLimitOf n = None /\
     (RateLimit (c s) = None -> forall s', setRateLimit w co s = Ok tt s' ->
        RateLimit (c s') = None))
  /\ (n <> 0 ->
        setRateLimit w co s =
          Ok tt (set_c (set_RateLimit (Some {| MaxRate := PerHour n; MaxBurst := 100 |})) s)
        /\ rateLimitOf n = Some {| MaxRate := PerHour n; MaxBurst := 100 |}
        /\ forall s', setRateLimit w co s = Ok tt s' ->
             RateLimit (c s') = Some {| MaxRate := PerHour n; MaxBurst := 100 |}).
Proof.
  unfold setRateLimit, rateLimitOf. rewrite Hn, Hkey. split.
  - intros ->. rewrite bool_decide_eq_false_2 by tauto.
    split_and!; [reflexivity | reflexivity |].
    intros Hnil s' [= <-]. exact Hnil.
  - intros Hnz. rewrite bool_decide_eq_true_2 by exact Hnz.
    split_and!; [reflexivity | reflexivity |].
    now intros s' [= <-].
Qed.

(** The default of the table, 3600 requests an hour, and no limit. *)
Lemma rate_limit_resolver_witness :
  (setRateLimit goodWorld
     {| name := "per-hour-rate-limit"; envVar := "PER_HOUR_RATE_LIMIT";
        flagDefault_ := DInt 3600; required := false; usage := "";
        customSetValue := Some SetRateLimit; configKey := Some PRateQuotaPtr |}
     (startState quietLogger)
   = Ok tt (set_c (set_RateLimit (Some {| MaxRate := PerHour 3600; MaxBurst := 100 |}))
              (startState quietLogger))
   /\ rateLimitOf 3600 = Some {| MaxRate := PerHour 3600; MaxBurst := 100 |})
  /\ rateLimitOf 0 = None.
Proof.
  split.
  - pose proof (proj2 (rate_limit_resolver goodWorld
        {| name := "per-hour-rate-limit"; envVar := "PER_HOUR_RATE_LIMIT";
           flagDefault_ := DInt 3600; required := false; usage := "";
           customSetValue := Some SetRateLimit; configKey := Some PRateQuotaPtr |}
        (startState quietLogger) 3600 eq_refl eq_refl)) as H.
    destruct H as (H1 & H2 & _); [lia |]. split; [exact H1 | exact H2].
  - reflexivity.
Defined.

(** ** Unsigned options (C4) *)

(** The descriptor of the table, as [init] leaves it, with the given
    name. *)
Definition descriptor (n : string) : option configOption :=
  snd <$> list_find (λ co, name co = n) (opts init).

Lemma uint_of_int_range (n : Z) : 0 <= uint_of_int n < 2 ^ 64.
Proof. unfold uint_of_int. apply Z.mod_pos_bound. lia. Qed.

Lemma uint_of_int_nonneg (n : Z) : 0 <= n < 2 ^ 63 -> uint_of_int n = n.
Proof. intros H. unfold uint_of_int. apply Z.mod_small. lia. Qed.

Lemma uint_of_int_neg (n : Z) : - 2 ^ 63 <= n < 0 -> uint_of_int n = n + 2 ^ 64.
Proof.
  intros H. unfold uint_of_int.
  symmetry. apply (Z.mod_unique n (2 ^ 64) (-1)); lia.
Qed.

Lemma loadUint_storeUint (f : uintField) (v : Z) (k : Config) :
  loadUint f (storeUint f v k) = v.
Proof. now destruct f. Qed.

(** C4, as the code has it.  For a descriptor whose default is an unsigned
    integer and whose [configKey] points to an unsigned field, resolution
    takes the signed integer [n] that viper gives and stores [uint(n)]:
    there is no range check and nothing is written to the log.  The value
    stored is [n] itself when [n] is not negative, and [n + 2^64] when it
    is negative.  The literal that [initConfig] assigns to [config]
    converts the three unsigned options the same way. *)
Theorem unsigned_resolution_wraps (w : World) (co : configOption) (s : State)
    (f : uintField) (d : Z)
    (Hdefault : flagDefault_ co = DUint d)
    (Hkey : configKey co = Some (PUint f))
    (Hcustom : customSetValue co = None)
    (Hint : - 2 ^ 63 <= viper_GetInt w (name co) < 2 ^ 63) :
  let n := viper_GetInt w (name co) in
  setValue w co s = Ok tt (set_c (storeUint f (uint_of_int n)) s)
  /\ setSimpleValue w co s = Ok tt (set_c (storeUint f (uint_of_int n)) s)
  /\ loadUint f (c (set_c (storeUint f (uint_of_int n)) s)) = uint_of_int n
  /\ stdLog (set_c (storeUint f (uint_of_int n)) s) = stdLog s
  /\ 0 <= uint_of_int n < 2 ^ 64
  /\ (0 <= n -> uint_of_int n = n)
  /\ (n < 0 -> uint_of_int n = n + 2 ^ 64)
  /\ (forall ll lf cert key u q,
        MaxPathLength (assemble w ll lf cert key u q)
          = uint_of_int (viper_GetInt w "max-path-length")
        /\ HistoryRetentionCount (assemble w ll lf cert key u q)
          = uint_of_int (viper_GetInt w "history-retention-count")
        /\ StaleThreshold (assemble w ll lf cert key u q)
          = uint_of_int (viper_GetInt w "history-stale-threshold")).
Proof.
  intros n. subst n.
  assert (E : setSimpleValue w co s
              = Ok tt (set_c (storeUint f (uint_of_int (viper_GetInt w (name co)))) s)).
  { unfold setSimpleValue. rewrite Hkey, Hdefault. reflexivity. }
  split_and!.
  - unfold setValue. rewrite Hcustom, Hkey. exact E.
  - exact E.
  - simpl. apply loadUint_storeUint.
  - reflexivity.
  - apply uint_of_int_range.
  - apply uint_of_int_range.
  - intros H. apply uint_of_int_nonneg. lia.
  - intros H. apply uint_of_int_neg. lia.
  - intros. split_and!; reflexivity.
Qed.

(** The world of [goodWorld] with [MAX_PATH_LENGTH=-1] in the
    environment. *)
Definition negativePathWorld : World :=
  sampleWorld goodStrings [("max-path-length", -1)] [] 0.

(** With [-1] for [max-path-length], the resolution returns, and the field
    holds 18446744073709551615. *)
Lemma unsigned_resolution_wraps_witness :
  (co ← descriptor "max-path-length";
   Some (setValue negativePathWorld co (startState quietLogger)))
  = Some (Ok tt (set_c (set_MaxPathLength 18446744073709551615) (startState quietLogger))).
Proof.
  change (descriptor "max-path-length")
    with (Some {| name := "max-path-length"; envVar := "MAX_PATH_LENGTH";
                  configKey := Some (PUint fMaxPathLength);
                  flagDefault_ := DUint 4; required := false; customSetValue := None;
                  usage := "the maximum number of assets on the path in `/paths` endpoint" |}).
  cbn [mbind option_bind].
  apply (f_equal Some).
  match goal with |- setValue _ ?d _ = _ => set (co := d) end.
  refine (proj1 (unsigned_resolution_wraps negativePathWorld co (startState quietLogger)
                   fMaxPathLength 4 eq_refl eq_refl eq_refl _)).
  simpl. lia.
Defined.

(** C4, as the specification states it, fails: a negative value is not refused.
    With [-1] for [max-path-length] the resolver returns normally, writes
    no line, and leaves 2^64 - 1 in [MaxPathLength]. *)
Lemma unsigned_resolution_no_guard :
  exists co,
    descriptor "max-path-length" = Some co
    /\ flagDefault_ co = DUint 4
    /\ viper_GetInt negativePathWorld (name co) = -1
    /\ exists s',
         setValue negativePathWorld co (startState quietLogger) = Ok tt s'
         /\ MaxPathLength (c s') = 2 ^ 64 - 1
         /\ stdLog s' = [].
Proof.
  eexists. split; [vm_compute; reflexivity |].
  split_and!; [reflexivity | reflexivity |].
  eexists. split_and!; [vm_compute; reflexivity | reflexivity | reflexivity].
Qed.

(** ** The URL resolver (C8) *)

(** [setURL], case by case: an empty text changes nothing; a text that
    does not parse ends the process with the text in the line written; a
    text that parses is stored when [configKey] holds a [*url.URL], and
    is a failed type assertion when it holds the [**url.URL] that
    [&c.FriendbotURL] is. *)
Lemma setURL_cases (w : World) (co : configOption) (s : State) :
  (viper_GetString w (name co) = "" -> setURL w co s = Ok tt s)
  /\ (forall e, viper_GetString w (name co) <> "" ->
        url_Parse w (viper_GetString w (name co)) = inr e ->
        setURL w co s =
          Halt (Exit 1)
            (write_stdLog
               (Printf "Unable to parse URL: %s/%v"
                  [AString (viper_GetString w (name co)); AError e]) s))
  /\ (forall u x, viper_GetString w (name co) <> "" ->
        url_Parse w (viper_GetString w (name co)) = inl u ->
        configKey co = Some (PURL x) ->
        setURL w co s = Ok tt (set_urlVar x u s))
  /\ (forall u, viper_GetString w (name co) <> "" ->
        url_Parse w (viper_GetString w (name co)) = inl u ->
        configKey co = Some PURLPtr ->
        setURL w co s = Halt (Panicked InterfaceConversion) s).
Proof.
  unfold setURL. cbn zeta. split_and!.
  - intros ->. reflexivity.
  - intros e Hne ->. now rewrite bool_decide_eq_true_2.
  - intros u x Hne -> ->. now rewrite bool_decide_eq_true_2.
  - intros u Hne -> ->. now rewrite bool_decide_eq_true_2.
Qed.

(** The check of the friendbot URL inside [initConfig], case by case. *)
Lemma parseFriendbotURL_cases (w : World) (s : State) :
  (viper_GetString w "friendbot-url" = "" -> parseFriendbotURL w s = Ok None s)
  /\ (forall e, viper_GetString w "friendbot-url" <> "" ->
        url_Parse w (viper_GetString w "friendbot-url") = inr e ->
        parseFriendbotURL w s =
          Halt (Exit 1)
            (write_stdLog
               (Printf "Unable to parse URL: %s/%v"
                  [AString (viper_GetString w "friendbot-url"); AError e]) s))
  /\ (forall u, viper_GetString w "friendbot-url" <> "" ->
        url_Parse w (viper_GetString w "friendbot-url") = inl u ->
        parseFriendbotURL w s = Ok (Some u) s).
Proof.
  unfold parseFriendbotURL. cbn zeta. split_and!.
  - intros ->. reflexivity.
  - intros e Hne ->. now rewrite bool_decide_eq_true_2.
  - intros u Hne ->. now rewrite bool_decide_eq_true_2.
Qed.

(** The world of [goodWorld] with a friendbot URL that parses. *)
Definition friendbotWorld : World :=
  sampleWorld (("friendbot-url", "http://localhost:8004/") :: goodStrings) goodInts [] 0.

(** C8, at the input on which the code departs from it.  With
    [http://localhost:8004/] for [friendbot-url], a text that parses,
    [setURL] on the descriptor of the table stores nothing: the run ends in
    the failed type assertion, with [FriendbotURL] still nil in [c] and in
    [config], and no line written. *)
Theorem friendbot_url_resolution_panics :
  exists co s',
    descriptor "friendbot-url" = Some co
    /\ url_Parse friendbotWorld (viper_GetString friendbotWorld (name co))
       = inl {| Scheme := ""; Host := ""; Path := "http://localhost:8004/";
                RawQuery := ""; Fragment := "" |}
    /\ setURL friendbotWorld co (startState quietLogger)
       = Halt (Panicked InterfaceConversion) (startState quietLogger)
    /\ initConfig friendbotWorld (startState quietLogger)
       = Halt (Panicked InterfaceConversion) s'
    /\ FriendbotURL (c s') = None
    /\ FriendbotURL (config s') = None
    /\ stdLog s' = [].
Proof.
  eexists _, _. split; [vm_compute; reflexivity |].
  split_and!; [reflexivity | reflexivity | vm_compute; reflexivity
              | reflexivity | reflexivity | reflexivity].
Qed.

(** ** Account thresholds (C10) *)

(** C10.  For a row whose [Thresholds] holds at least four bytes,
    [PopulateAccountThresholds] returns with [LowThreshold],
    [MedThreshold] and [HighThreshold] set to the bytes at indices 1, 2
    and 3, and the rest of the destination as it was; the byte at index 0
    has no effect on the result; and a row with fewer than four bytes
    ends in an index out of range, whatever the destination. *)
Theorem PopulateAccountThresholds_spec {R : Type}
    (dest : resourceadapter.AccountThresholds R) (row : resourceadapter.Account)
    (Hlen : (4 <= length (resourceadapter.Thresholds row))%nat) :
  (exists t1 t2 t3,
      resourceadapter.Thresholds row !! 1%nat = Some t1
      /\ resourceadapter.Thresholds row !! 2%nat = Some t2
      /\ resourceadapter.Thresholds row !! 3%nat = Some t3
      /\ resourceadapter.PopulateAccountThresholds dest row
         = resourceadapter.Returned
             {| resourceadapter.LowThreshold := t1;
                resourceadapter.MedThreshold := t2;
                resourceadapter.HighThreshold := t3;
                resourceadapter.otherFields := resourceadapter.otherFields dest |})
  /\ (forall t0,
        resourceadapter.PopulateAccountThresholds dest
          {| resourceadapter.Thresholds := <[0%nat := t0]> (resourceadapter.Thresholds row) |}
        = resourceadapter.PopulateAccountThresholds dest row)
  /\ (forall (d : resourceadapter.AccountThresholds R) short,
        (length (resourceadapter.Thresholds short) < 4)%nat ->
        exists d', resourceadapter.PopulateAccountThresholds d short
                   = resourceadapter.OutOfRange d'
                   /\ resourceadapter.otherFields d' = resourceadapter.otherFields d).
Proof.
  destruct row as [l]. simpl in *.
  split_and!.
  - destruct l as [|t0 [|t1 [|t2 [|t3 l]]]]; simpl in Hlen; try lia.
    exists t1, t2, t3. split_and!; reflexivity.
  - intros t0'. destruct l as [|t0 l]; reflexivity.
  - intros d [l'] Hshort. simpl in Hshort.
    destruct l' as [|t0 [|t1 [|t2 [|t3 l']]]]; simpl in Hshort; try lia;
      eexists; split; reflexivity.
Qed.

(** The row with thresholds 1, 0, 0, 0 gives low 0, medium 0, high 0 to a
    destination that held 9, 9, 9; with thresholds 1, 2, 3, 4 it gives
    2, 3, 4. *)
Lemma PopulateAccountThresholds_witness :
  resourceadapter.PopulateAccountThresholds
    {| resourceadapter.LowThreshold := Byte.x09; resourceadapter.MedThreshold := Byte.x09;
       resourceadapter.HighThreshold := Byte.x09; resourceadapter.otherFields := "kept" |}
    {| resourceadapter.Thresholds := [Byte.x01; Byte.x02; Byte.x03; Byte.x04] |}
  = resourceadapter.Returned
      {| resourceadapter.LowThreshold := Byte.x02; resourceadapter.MedThreshold := Byte.x03;
         resourceadapter.HighThreshold := Byte.x04; resourceadapter.otherFields := "kept" |}.
Proof.
  destruct (proj1 (PopulateAccountThresholds_spec
      {| resourceadapter.LowThreshold := Byte.x09; resourceadapter.MedThreshold := Byte.x09;
         resourceadapter.HighThreshold := Byte.x09; resourceadapter.otherFields := "kept" |}
      {| resourceadapter.Thresholds := [Byte.x01; Byte.x02; Byte.x03; Byte.x04] |}
      (le_n 4))) as (t1 & t2 & t3 & E1 & E2 & E3 & E).
  injection E1 as <-. injection E2 as <-. injection E3 as <-. exact E.
Defined.

(** ** The end of [initConfig] (C1) *)

(** [initConfig] up to the assignment of [config]: every validation, the
    gate, and the assembly. *)
Definition resolveAndAssemble (w : World) : M unit :=
  checkRequired w;;
  checkMigrations w;;
  setValues w;;
  ll ← checkLogLevel w;
  (t ← gets tlsProvided; validateTLS t);;
  lf ← openLogFile w;
  '(cert, key) ← checkTLSPair w;
  friendbotURL ← parseFriendbotURL w;
  let rateLimit := rateLimitOf (viper_GetInt w "per-hour-rate-limit") in
  modify (set_config (assemble w ll lf cert key friendbotURL rateLimit)).

Lemma initConfig_halts (w : World) : halts (initConfig w).
Proof.
  unfold initConfig.
  do 6 (apply halts_bind_r; intros ?).
  apply halts_bind_r; intros [cert key].
  do 3 (apply halts_bind_r; intros ?).
  apply halts_Fatal.
Qed.

Lemma initApp_halts (w : World) : halts (initApp w).
Proof. unfold initApp. apply halts_bind_l, initConfig_halts. Qed.

Lemma printField_run (field verb : string) (arg : Config -> fmtArg) (s : State) :
  printField field verb arg s =
    Ok tt (write_stdLog
             (Printf (fieldFormat field verb)
                [arg (c s); arg (c s); arg (config s); arg (config s)]) s).
Proof. reflexivity. Qed.

(** Writing a line changes the log only. *)
Definition sameButLog (n : nat) (s s' : State) : Prop :=
  c s' = c s /\ config s' = config s /\ app s' = app s
  /\ tlsProvided s' = tlsProvided s /\ DefaultLogger s' = DefaultLogger s
  /\ urlVars s' = urlVars s
  /\ length (stdLog s') = (length (stdLog s) + n)%nat.

Lemma sameButLog_refl (s : State) : sameButLog 0 s s.
Proof. unfold sameButLog. split_and!; try reflexivity. lia. Qed.

Lemma sameButLog_write (n : nat) (l : logLine) (s s' : State) :
  sameButLog n s s' -> sameButLog (S n) s (write_stdLog l s').
Proof.
  unfold sameButLog. intros (? & ? & ? & ? & ? & ? & Hlen).
  split_and!; simpl; try assumption.
  rewrite length_app, Hlen. simpl. lia.
Qed.

Lemma printField_then {A} (field verb : string) (arg : Config -> fmtArg)
    (k : M A) (P : result A -> Prop) (n : nat) (s0 s : State) :
  sameButLog n s0 s ->
  (forall s', sameButLog (S n) s0 s' -> P (k s')) ->
  P ((printField field verb arg;; k) s).
Proof.
  intros Hs Hk. unfold mbind, M_bind. rewrite printField_run.
  apply Hk. now apply sameButLog_write.
Qed.

Lemma printFields_run (s : State) :
  exists s', printFields s = Ok tt s'
             /\ c s' = c s /\ config s' = config s
             /\ tlsProvided s' = tlsProvided s
             /\ DefaultLogger s' = DefaultLogger s
             /\ length (stdLog s') = (length (stdLog s) + 24)%nat.
Proof.
  unfold printFields.
  pose proof (sameButLog_refl s) as H0.
  do 23 (eapply printField_then; [eassumption | clear; intros ? ?]).
  rewrite printField_run.
  match goal with H : sameButLog _ s ?x |- _ =>
    apply (sameButLog_write _ (Printf (fieldFormat "SkipCursorUpdate" "%t")
             [ABool (SkipCursorUpdate (c x)); ABool (SkipCursorUpdate (c x));
              ABool (SkipCursorUpdate (config x)); ABool (SkipCursorUpdate (config x))]))
      in H; destruct H as (? & ? & ? & ? & ? & ? & ?)
  end.
  eexists. split; [reflexivity |]. split_and!; assumption.
Qed.

Lemma initConfig_after_assembly (w : World) (s : State) :
  initConfig w s
  = (resolveAndAssemble w;; printFields;; stdLog_Fatal [AString "Died here"]) s.
Proof.
  unfold initConfig, resolveAndAssemble, mbind, M_bind.
  destruct (checkRequired w s) as [[] s1|]; [|reflexivity].
  destruct (checkMigrations w s1) as [[] s2|]; [|reflexivity].
  destruct (setValues w s2) as [[] s3|]; [|reflexivity].
  destruct (checkLogLevel w s3) as [ll s4|]; [|reflexivity].
  destruct (gets tlsProvided s4) as [t s5|]; [|reflexivity].
  destruct (validateTLS t s5) as [[] s6|]; [|reflexivity].
  destruct (openLogFile w s6) as [lf s7|]; [|reflexivity].
  destruct (checkTLSPair w s7) as [[cert key] s8|]; [|reflexivity].
  destruct (parseFriendbotURL w s8) as [u s9|]; reflexivity.
Qed.

(** C1, at the inputs on which the code departs from it.  [initConfig]
    returns from no state of no world, and so neither does [initApp]:
    whenever every validation and the gate succeed and [config] has been
    assembled, the run goes on to write the lines about the fields and
    then ends with [stdLog.Fatal("Died here")], exit status 1.  In
    [goodWorld] every validation and the gate do succeed, [config] is
    assembled as the options say, and the run ends that way. *)
Theorem initConfig_never_returns :
  (forall w s, exists h s', initConfig w s = Halt h s')
  /\ (forall w s, exists h s', initApp w s = Halt h s')
  /\ (forall w s s1, resolveAndAssemble w s = Ok tt s1 ->
        exists s2, initConfig w s = Halt (Exit 1) s2
                   /\ config s2 = config s1
                   /\ last (stdLog s2) = Some (Print [AString "Died here"]))
  /\ (exists s1 s2,
        resolveAndAssemble goodWorld (startState quietLogger) = Ok tt s1
        /\ initConfig goodWorld (startState quietLogger) = Halt (Exit 1) s2
        /\ last (stdLog s2) = Some (Print [AString "Died here"])
        /\ length (stdLog s2) = 25%nat
        /\ config s2 =
           {| DatabaseURL := "postgres://localhost/horizon";
              StellarCoreDatabaseURL := "postgres://localhost/core";
              StellarCoreURL := "http://localhost:11626";
              Port := 8000; MaxDBConnections := 20;
              SSEUpdateFrequency := 5 * Second; ConnectionTimeout := 55 * Second;
              RateLimit := Some {| MaxRate := PerHour 3600; MaxBurst := 100 |};
              RateLimitRedisKey := ""; RedisURL := "";
              FriendbotURL := None; LogLevel := InfoLevel; LogFile := "";
              MaxPathLength := 4; NetworkPassphrase := TestNetworkPassphrase;
              SentryDSN := ""; LogglyToken := ""; LogglyTag := "horizon";
              TLSCert := ""; TLSKey := ""; Ingest := false;
              HistoryRetentionCount := 0; StaleThreshold := 0;
              SkipCursorUpdate := false; EnableAssetStats := false |}).
Proof.
  split_and!.
  - intros w. apply initConfig_halts.
  - intros w. apply initApp_halts.
  - intros w s s1 E. rewrite initConfig_after_assembly.
    rewrite (bind_Ok _ _ _ _ _ E).
    destruct (printFields_run s1) as (s2 & E2 & _ & Hconfig & _).
    rewrite (bind_Ok _ _ _ _ _ E2). rewrite Fatal_run.
    eexists. split_and!; [reflexivity | exact Hconfig |].
    simpl. apply last_snoc.
  - eexists _, _.
    split_and!; [vm_compute; reflexivity | vm_compute; reflexivity
                | reflexivity | reflexivity | reflexivity].
Qed.

(** ** The order of the checks (C2) *)

(** A descriptor that [require] refuses: required, and blank. *)
Definition blank (w : World) (co : configOption) : bool :=
  required co && bool_decide (viper_GetString w (name co) = "").

(** The loop over [require] stops at the first descriptor that is
    required and blank, and changes nothing when there is none. *)
Lemma forRange_require (w : World) (l : list configOption) (s : State) :
  forRange l (require w) s =
    match List.find (blank w) l with
    | Some co =>
        Halt (Exit 1)
          (write_stdLog
             (Printf requireFormat
                [AString (name co); AString (name co); AString (envVar co)]) s)
    | None => Ok tt s
    end.
Proof.
  induction l as [|co l IH]; [reflexivity |].
  cbn [forRange List.find]. unfold mbind, M_bind.
  unfold require at 1. fold (blank w co).
  destruct (blank w co); [reflexivity |].
  cbn. apply IH.
Qed.

(** What [initConfig] does once every descriptor has set its value: the
    checks across fields, the assembly, and the end. *)
Definition afterResolvers (w : World) : M unit :=
  ll ← checkLogLevel w;
  (t ← gets tlsProvided; validateTLS t);;
  lf ← openLogFile w;
  '(cert, key) ← checkTLSPair w;
  friendbotURL ← parseFriendbotURL w;
  let rateLimit := rateLimitOf (viper_GetInt w "per-hour-rate-limit") in
  modify (set_config (assemble w ll lf cert key friendbotURL rateLimit));;
  printFields;;
  stdLog_Fatal [AString "Died here"].

(** C2, as the code has it.  [initConfig] checks the required options
    first: if one is blank, the run ends with the line about the first
    such descriptor of the table, whatever the migrations are.  Only then
    comes the migration gate (up before down), which ends the run with its
    own lines and nothing else.  Only when the gate lets the run through do
    the descriptors set their values, in the order of the table; if one of
    them ends the run, that is the end of [initConfig].  The checks across
    fields come last.  In every case the state at the end is the one the
    stage that ended the run left: no later stage has run. *)
Theorem initConfig_order (w : World) (s : State) :
  let up := schema_GetMigrationsUp w (viper_GetString w "db-url") in
  let down := schema_GetNumMigrationsDown w (viper_GetString w "db-url") in
  match List.find (blank w) (opts init) with
  | Some co =>
      initConfig w s =
        Halt (Exit 1)
          (write_stdLog
             (Printf requireFormat
                [AString (name co); AString (name co); AString (envVar co)]) s)
  | None =>
      if bool_decide (Z.of_nat (length up) > 0) then
        initConfig w s =
          Halt (Exit 1)
            (write_stdLog (Printf upCommandFormat [AString (apkg_Version w)])
               (write_stdLog (Printf upListFormat [AStrings up])
                  (write_stdLog (Printf upCountFormat [AInt (Z.of_nat (length up))]) s)))
      else if bool_decide (down > 0) then
        initConfig w s =
          Halt (Exit 1)
            (write_stdLog (Printf downCommandFormat [AInt down])
               (write_stdLog (Printf downNoticeFormat [AString (apkg_Version w)]) s))
      else
        match setValues w s with
        | Halt h s' => initConfig w s = Halt h s'
        | Ok _ s' => initConfig w s = afterResolvers w s'
        end
  end.
Proof.
  intros up down.
  pose proof (forRange_require w (opts init) s) as Hreq.
  fold (checkRequired w) in Hreq.
  pose proof (checkMigrations_run w s) as Hgate. cbn zeta in Hgate.
  fold up down in Hgate.
  unfold initConfig.
  destruct (List.find (blank w) (opts init)) as [co|].
  - now rewrite (bind_Halt _ _ _ _ _ Hreq).
  - rewrite (bind_Ok _ _ _ _ _ Hreq).
    destruct (bool_decide (Z.of_nat (length up) > 0)).
    + now rewrite (bind_Halt _ _ _ _ _ Hgate).
    + destruct (bool_decide (down > 0)).
      * now rewrite (bind_Halt _ _ _ _ _ Hgate).
      * rewrite (bind_Ok _ _ _ _ _ Hgate).
        destruct (setValues w s) as [[] s'|h s'] eqn:E.
        -- now rewrite (bind_Ok _ _ _ _ _ E).
        -- now rewrite (bind_Halt _ _ _ _ _ E).
Qed.

(** A deployment with no option given and two migrations pending. *)
Definition blankAndPendingWorld : World :=
  sampleWorld [] goodInts ["8_create_asset_stats_table.sql"; "9_add_header_xdr.sql"] 0.

(** C2, as the specification states it, fails: the gate is not the first check.
    In [blankAndPendingWorld] the gate would end the run with its three
    lines, yet [initConfig] ends with the line about the blank [db-url]
    and writes none of the gate's. *)
Lemma gate_is_not_first :
  (exists sg,
      checkMigrations blankAndPendingWorld (startState quietLogger) = Halt (Exit 1) sg
      /\ stdLog sg =
         [Printf upCountFormat [AInt 2];
          Printf upListFormat
            [AStrings ["8_create_asset_stats_table.sql"; "9_add_header_xdr.sql"]];
          Printf upCommandFormat [AString "0.15.0"]])
  /\ (exists s',
        initConfig blankAndPendingWorld (startState quietLogger) = Halt (Exit 1) s'
        /\ stdLog s' =
           [Printf requireFormat
              [AString "db-url"; AString "db-url"; AString "DATABASE_URL"]]).
Proof.
  split; eexists; (split; [vm_compute; reflexivity | reflexivity]).
Qed.

(** ** The TLS pair (C5) *)

(** What one descriptor does to [tlsProvided] when it sets its value. *)
Definition bump (w : World) (co : configOption) (t : Z) : Z :=
  match customSetValue co with
  | Some IncrementTLSFlag =>
      if bool_decide (viper_GetString w (name co) ≠ "") then wrap_int64 (t + 1) else t
  | _ => t
  end.

Lemma setValue_tlsProvided (w : World) (co : configOption) (s s' : State) :
  setValue w co s = Ok tt s' -> tlsProvided s' = bump w co (tlsProvided s).
Proof.
  unfold setValue, bump, callCustom, setDuration, setURL, setLogLevel, setLogFile,
    setRateLimit, incrementTLSFlag, setSimpleValue,
    asString, asInt, asUint, asBool, asDuration, asLevel, asRateQuotaPtr, asURL.
  unfold mbind, M_bind, mret, M_ret, modify, throw, stdLog_Fatalf, stdLog_Fatal,
    os_Exit.
  intros E.
  repeat (case_match; simplify_eq/=); reflexivity.
Qed.

(** The loop over [setValue]: the counter at its end. *)
Lemma setValues_tlsProvided (w : World) (l : list configOption) (s s' : State) :
  forRange l (setValue w) s = Ok tt s' ->
  tlsProvided s' = foldl (λ t co, bump w co t) (tlsProvided s) l.
Proof.
  revert s. induction l as [|co l IH]; intros s; cbn [forRange foldl].
  - now intros [= <-].
  - unfold mbind, M_bind.
    destruct (setValue w co s) as [[] s1|] eqn:E; [|discriminate].
    intros E'. rewrite (IH _ E'). now rewrite (setValue_tlsProvided _ _ _ _ E).
Qed.

(** The number of the two TLS options that are not blank. *)
Definition tlsGiven (w : World) : Z :=
  (if bool_decide (viper_GetString w "tls-cert" ≠ "") then 1 else 0)
  + (if bool_decide (viper_GetString w "tls-key" ≠ "") then 1 else 0).

(** Exactly one of the two is not blank. *)
Definition halfConfigured (w : World) : Prop :=
  (viper_GetString w "tls-cert" ≠ "" /\ viper_GetString w "tls-key" = "")
  \/ (viper_GetString w "tls-cert" = "" /\ viper_GetString w "tls-key" ≠ "").

Lemma tlsGiven_one (w : World) : tlsGiven w = 1 <-> halfConfigured w.
Proof.
  unfold tlsGiven, halfConfigured.
  repeat case_bool_decide; split; intros; try lia; tauto.
Qed.

(** From a counter at zero, the table leaves in [tlsProvided] the number
    of TLS options given. *)
Lemma table_counts_tls (w : World) (s s' : State) :
  tlsProvided s = 0 -> setValues w s = Ok tt s' -> tlsProvided s' = tlsGiven w.
Proof.
  intros H0 E. unfold setValues in E.
  rewrite (setValues_tlsProvided _ _ _ _ E), H0.
  let l := eval vm_compute in (opts init) in change (opts init) with l.
  unfold tlsGiven. cbn [foldl bump customSetValue name].
  repeat case_bool_decide; reflexivity.
Qed.

Lemma checkLogLevel_Ok (w : World) (s s' : State) (ll : Level) :
  checkLogLevel w s = Ok ll s' -> s' = set_DefaultLogger (with_Level ll) s.
Proof.
  unfold checkLogLevel.
  destruct (logrus_ParseLevel w _); [|discriminate].
  now intros [= <- <-].
Qed.

Lemma validateTLS_run (t : Z) (s : State) :
  validateTLS t s =
    if bool_decide (t = 1) then
      Halt (Exit 1)
        (write_stdLog
           (Print [AString "Invalid TLS config: both key and cert must be configured"]) s)
    else Ok tt s.
Proof. unfold validateTLS. now case_bool_decide. Qed.

Lemma checkTLSPair_run (w : World) (s : State) :
  checkTLSPair w s =
    let cert := viper_GetString w "tls-cert" in
    let key := viper_GetString w "tls-key" in
    if bool_decide (cert ≠ "") && bool_decide (key = "") then
      Halt (Exit 1) (write_stdLog (Print [AString "Invalid TLS config: key not configured"]) s)
    else if bool_decide (cert = "") && bool_decide (key ≠ "") then
      Halt (Exit 1) (write_stdLog (Print [AString "Invalid TLS config: cert not configured"]) s)
    else Ok (cert, key) s.
Proof.
  unfold checkTLSPair. cbn zeta.
  destruct (bool_decide (viper_GetString w "tls-cert" ≠ "") && _); [reflexivity |].
  destruct (bool_decide (viper_GetString w "tls-cert" = "") && _); reflexivity.
Qed.

Lemma validateTLS_halts_iff (t : Z) (s : State) :
  (exists h s', validateTLS t s = Halt h s') <-> t = 1.
Proof.
  rewrite validateTLS_run. case_bool_decide; split; intros HH;
    first [tauto | now eauto | now destruct HH as (? & ? & [=])].
Qed.

Lemma checkTLSPair_halts_iff (w : World) (s : State) :
  (exists h s', checkTLSPair w s = Halt h s') <-> halfConfigured w.
Proof.
  rewrite checkTLSPair_run. cbn zeta. unfold halfConfigured.
  repeat case_bool_decide; simpl; split; intros HH;
    first [tauto | now eauto | now destruct HH as (? & ? & [=])].
Qed.

Lemma checkTLSPair_passes (w : World) (s : State) :
  ~ halfConfigured w ->
  checkTLSPair w s = Ok (viper_GetString w "tls-cert", viper_GetString w "tls-key") s.
Proof.
  rewrite checkTLSPair_run. cbn zeta. unfold halfConfigured.
  repeat case_bool_decide; simpl; intros HH; first [reflexivity | tauto].
Qed.

(** C5, as the code has it.  Take a run that starts with the counter at
    zero and in which the required options, the gate, the descriptors and
    the log level all pass.  Then [tlsProvided] is the number of the
    options [tls-cert] and [tls-key] that are not blank, and [validateTLS]
    ends the run exactly when exactly one of them is not blank; the line
    it writes, [both key and cert must be configured], is the same
    whichever half is missing, and it is the last line of [initConfig].
    The switch that follows in [initConfig] also ends a run exactly when
    exactly one of the two is not blank, and its line names the missing
    half; when neither or both are given, both checks pass. *)
Theorem tls_pair_validation (w : World) (s s2 s3 : State) (ll : Level)
    (Hzero : tlsProvided s = 0)
    (Hreq : checkRequired w s = Ok tt s)
    (Hgate : checkMigrations w s = Ok tt s)
    (Hset : setValues w s = Ok tt s2)
    (Hlevel : checkLogLevel w s2 = Ok ll s3) :
  let cert := viper_GetString w "tls-cert" in
  let key := viper_GetString w "tls-key" in
  tlsProvided s3 = tlsGiven w
  /\ ((exists h s', validateTLS (tlsProvided s3) s3 = Halt h s') <-> halfConfigured w)
  /\ (halfConfigured w ->
        initConfig w s =
          Halt (Exit 1)
            (write_stdLog
               (Print [AString "Invalid TLS config: both key and cert must be configured"])
               s3))
  /\ (forall st, (exists h s', checkTLSPair w st = Halt h s') <-> halfConfigured w)
  /\ (forall st, cert ≠ "" -> key = "" ->
        checkTLSPair w st =
          Halt (Exit 1)
            (write_stdLog (Print [AString "Invalid TLS config: key not configured"]) st))
  /\ (forall st, cert = "" -> key ≠ "" ->
        checkTLSPair w st =
          Halt (Exit 1)
            (write_stdLog (Print [AString "Invalid TLS config: cert not configured"]) st))
  /\ (~ halfConfigured w ->
        validateTLS (tlsProvided s3) s3 = Ok tt s3
        /\ forall st, checkTLSPair w st = Ok (cert, key) st).
Proof.
  intros cert key.
  assert (Hcount : tlsProvided s3 = tlsGiven w).
  { rewrite (checkLogLevel_Ok _ _ _ _ Hlevel). simpl.
    now apply (table_counts_tls w s s2). }
  split; [exact Hcount |].
  split; [now rewrite validateTLS_halts_iff, Hcount, tlsGiven_one |].
  split.
  { intros Hhalf. apply tlsGiven_one in Hhalf.
    unfold initConfig.
    rewrite (bind_Ok _ _ _ _ _ Hreq), (bind_Ok _ _ _ _ _ Hgate),
      (bind_Ok _ _ _ _ _ Hset), (bind_Ok _ _ _ _ _ Hlevel).
    apply bind_Halt. unfold mbind, M_bind, gets.
    rewrite validateTLS_run, Hcount, Hhalf. reflexivity. }
  split; [intros st; apply checkTLSPair_halts_iff |].
  split.
  { intros st Hc Hk. rewrite checkTLSPair_run. cbn zeta. fold cert key.
    now rewrite (bool_decide_eq_true_2 _ Hc), (bool_decide_eq_true_2 _ Hk). }
  split.
  { intros st Hc Hk. rewrite checkTLSPair_run. cbn zeta. fold cert key.
    rewrite (bool_decide_eq_false_2 (cert ≠ "")) by tauto.
    now rewrite (bool_decide_eq_true_2 _ Hc), (bool_decide_eq_true_2 _ Hk). }
  intros Hnot. split.
  - rewrite validateTLS_run, Hcount.
    rewrite bool_decide_eq_false_2; [reflexivity |].
    now rewrite tlsGiven_one.
  - intros st. now apply checkTLSPair_passes.
Qed.

(** The deployments of [goodWorld] with only a certificate, and with only
    a key. *)
Definition certOnlyWorld : World :=
  sampleWorld (("tls-cert", "server.crt") :: goodStrings) goodInts [] 0.
Definition keyOnlyWorld : World :=
  sampleWorld (("tls-key", "server.key") :: goodStrings) goodInts [] 0.

(** With only a certificate, [initConfig] ends in the line of
    [validateTLS]. *)
Lemma tls_pair_validation_witness :
  exists s3,
    initConfig certOnlyWorld (startState quietLogger) =
      Halt (Exit 1)
        (write_stdLog
           (Print [AString "Invalid TLS config: both key and cert must be configured"])
           s3).
Proof.
  let r := eval vm_compute in (setValues certOnlyWorld (startState quietLogger)) in
  match r with
  | Ok _ ?s2 =>
      let r3 := eval vm_compute in (checkLogLevel certOnlyWorld s2) in
      match r3 with
      | Ok ?ll ?s3 =>
          exists s3;
          refine (proj1 (proj2 (proj2
                    (tls_pair_validation certOnlyWorld (startState quietLogger)
                       s2 s3 ll eq_refl _ _ _ _))) _)
      end
  end.
  - vm_compute; reflexivity.
  - vm_compute; reflexivity.
  - vm_compute; reflexivity.
  - vm_compute; reflexivity.
  - left. split; [discriminate | reflexivity].
Defined.

(** C5, as the specification states it, fails: the report does not name the
    missing half.  With only a certificate and with only a key the run
    ends with one and the same line, the only line written, which is
    neither [key not configured] nor [cert not configured]. *)
Lemma tls_report_names_no_half :
  exists s1 s2,
    initConfig certOnlyWorld (startState quietLogger) = Halt (Exit 1) s1
    /\ initConfig keyOnlyWorld (startState quietLogger) = Halt (Exit 1) s2
    /\ stdLog s1 =
       [Print [AString "Invalid TLS config: both key and cert must be configured"]]
    /\ stdLog s2 = stdLog s1.
Proof.
  eexists _, _.
  split_and!; [vm_compute; reflexivity | vm_compute; reflexivity
              | reflexivity | reflexivity].
Qed.

(** ** Environment variables (C3) *)

(** C3, at the input on which the code departs from it.  The table gives
    [db-url] the environment variable [DATABASE_URL] explicitly; [init]
    calls [viper.BindEnv] only inside the branch that derives a name for
    a descriptor without one, so no variable is bound for [db-url] (nor
    for [stellar-core-db-url]): with [DATABASE_URL] set and no flag given,
    the option is still blank, and [require] refuses it.  A descriptor
    without an explicit name, such as [stellar-core-url], is bound to the
    derived name and does take its value from the environment. *)
Theorem explicit_envVar_is_not_bound :
  (exists co,
      descriptor "db-url" = Some co
      /\ envVar co = "DATABASE_URL" /\ required co = true)
  /\ viper.env (registry init) !! "db-url" = None
  /\ viper.env (registry init) !! "stellar-core-db-url" = None
  /\ viper.GetString (registry init)
       {[ "DATABASE_URL" := "postgres://localhost/horizon" ]} "db-url" = ""
  /\ viper.env (registry init) !! "stellar-core-url" = Some "STELLAR_CORE_URL"
  /\ viper.GetString (registry init)
       {[ "STELLAR_CORE_URL" := "http://localhost:11626" ]} "stellar-core-url"
     = "http://localhost:11626".
Proof.
  split; [eexists; split; [vm_compute; reflexivity | split; reflexivity] |].
  split_and!; vm_compute; reflexivity.
Qed.

(** * Further properties of the resolution *)

(** ** What the table stores *)

(** The table as [init] leaves it, written out. *)
Ltac table_literal :=
  let l := eval vm_compute in (opts init) in change (opts init) with l in *.

Ltac unfold_setters :=
  unfold setValue, callCustom, setDuration, setURL, setLogLevel, setLogFile,
    setRateLimit, incrementTLSFlag, setSimpleValue,
    asString, asInt, asUint, asBool, asDuration, asLevel, asRateQuotaPtr, asURL,
    mbind, M_bind, mret, M_ret, modify, throw, stdLog_Fatalf, stdLog_Fatal,
    os_Exit in *.

(** The content of [c] once every descriptor of the table has set its
    value, from the content [k] it had before and the level [ll] that the
    text of [log-level] stands for: a resolver that finds its option blank
    (or zero, for the rate limit) leaves the field as it was. *)
Definition resolved (w : World) (ll : Level) (k : Config) : Config :=
  {| DatabaseURL := viper_GetString w "db-url";
     StellarCoreDatabaseURL := viper_GetString w "stellar-core-db-url";
     StellarCoreURL := viper_GetString w "stellar-core-url";
     Port := viper_GetInt w "port";
     MaxDBConnections := viper_GetInt w "max-db-connections";
     SSEUpdateFrequency := wrap_int64 (viper_GetInt w "sse-update-frequency" * Second);
     ConnectionTimeout := wrap_int64 (viper_GetInt w "connection-timeout" * Second);
     RateLimit :=
       if bool_decide (viper_GetInt w "per-hour-rate-limit" ≠ 0) then
         Some {| MaxRate := PerHour (viper_GetInt w "per-hour-rate-limit"); MaxBurst := 100 |}
       else RateLimit k;
     RateLimitRedisKey := viper_GetString w "rate-limit-redis-key";
     RedisURL := viper_GetString w "redis-url";
     FriendbotURL := FriendbotURL k;
     LogLevel := ll;
     LogFile :=
       if bool_decide (viper_GetString w "log-file" ≠ "") then viper_GetString w "log-file"
       else LogFile k;
     MaxPathLength := uint_of_int (viper_GetInt w "max-path-length");
     NetworkPassphrase := viper_GetString w "network-passphrase";
     SentryDSN := viper_GetString w "sentry-dsn";
     LogglyToken := viper_GetString w "loggly-token";
     LogglyTag := viper_GetString w "loggly-tag";
     TLSCert :=
       if bool_decide (viper_GetString w "tls-cert" ≠ "") then viper_GetString w "tls-cert"
       else TLSCert k;
     TLSKey :=
       if bool_decide (viper_GetString w "tls-key" ≠ "") then viper_GetString w "tls-key"
       else TLSKey k;
     Ingest := viper_GetBool w "ingest";
     HistoryRetentionCount := uint_of_int (viper_GetInt w "history-retention-count");
     StaleThreshold := uint_of_int (viper_GetInt w "history-stale-threshold");
     SkipCursorUpdate := viper_GetBool w "skip-cursor-update";
     EnableAssetStats := viper_GetBool w "enable-asset-stats" |}.

Ltac blank_by_stability :=
  match goal with
  | H : ¬ (?x ≠ ?y) |- ?x = ?y =>
      let Hn := fresh in
      destruct (decide (x = y)) as [|Hn]; [assumption | destruct (H Hn)]
  end.

(** The loop over [setValue], when it returns. *)
Lemma setValues_Ok (w : World) (s s2 : State) :
  setValues w s = Ok tt s2 ->
  viper_GetString w "friendbot-url" = ""
  /\ (exists ll,
        logrus_ParseLevel w (viper_GetString w "log-level") = inl ll
        /\ c s2 = resolved w ll (c s)
        /\ logger_Level (DefaultLogger s2) = ll)
  /\ (viper_GetString w "log-file" = "" /\ logger_Out (DefaultLogger s2) = logger_Out (DefaultLogger s)
      \/ viper_GetString w "log-file" ≠ "" /\
         exists f, os_OpenFile w (viper_GetString w "log-file") = inl f
                   /\ logger_Out (DefaultLogger s2) = Some f)
  /\ config s2 = config s /\ app s2 = app s /\ stdLog s2 = stdLog s
  /\ urlVars s2 = urlVars s.
Proof.
  intros E. unfold setValues in E. table_literal.
  cbn [forRange] in E. unfold_setters.
  cbn [customSetValue configKey flagDefault_ name] in E.
  repeat (case_match; simplify_eq/=).
  all: repeat match goal with
              | H : bool_decide _ = true |- _ => apply bool_decide_eq_true_1 in H
              | H : bool_decide _ = false |- _ => apply bool_decide_eq_false_1 in H
              end.
  all: split; [blank_by_stability |].
  all: split; [eexists; split; [reflexivity | split; [|reflexivity]] |].
  all: try (split;
            [first [left; split; [blank_by_stability | reflexivity]
                   | right; split; [assumption | eexists; split; reflexivity]]
            | split_and!; reflexivity]).
  all: unfold resolved;
    repeat match goal with
           | H : ?P |- context [bool_decide ?P] => rewrite (bool_decide_eq_true_2 P H)
           | H : ¬ ?P |- context [bool_decide ?P] => rewrite (bool_decide_eq_false_2 P H)
           end; reflexivity.
Qed.

Lemma bind_Ok_inv {A B} (m : M A) (f : A -> M B) (s s' : State) (b : B) :
  (m ≫= f) s = Ok b s' -> exists a s1, m s = Ok a s1 /\ f a s1 = Ok b s'.
Proof.
  unfold mbind, M_bind. destruct (m s) as [a s1|]; [eauto | discriminate].
Qed.

Lemma checkRequired_Ok (w : World) (s s' : State) :
  checkRequired w s = Ok tt s' -> s' = s.
Proof.
  unfold checkRequired. rewrite forRange_require.
  destruct (List.find _ _); [discriminate | now intros [= <-]].
Qed.

Lemma checkMigrations_Ok (w : World) (s s' : State) :
  checkMigrations w s = Ok tt s' -> s' = s.
Proof.
  rewrite checkMigrations_run. cbn zeta.
  repeat case_bool_decide; try discriminate. now intros [= <-].
Qed.

Lemma nonblank_or_empty (x : string) :
  (if bool_decide (x ≠ "") then x else "") = x.
Proof.
  case_bool_decide as H; [reflexivity | now rewrite H].
Qed.

(** X1.  The two resolutions agree.  [initConfig] fills [c] through the
    table and [config] through the literal it assembles; in every run that
    starts with [c] at its zero value and reaches the assignment of
    [config], the two hold the same value in every field. *)
Theorem table_resolution_agrees_with_assembly (w : World) (s s1 : State)
    (Hzero : c s = zeroConfig)
    (Hrun : resolveAndAssemble w s = Ok tt s1) :
  c s1 = config s1.
Proof.
  unfold resolveAndAssemble in Hrun.
  apply bind_Ok_inv in Hrun as ([] & sa & Ha & Hrun).
  apply checkRequired_Ok in Ha as ->.
  apply bind_Ok_inv in Hrun as ([] & sb & Hb & Hrun).
  apply checkMigrations_Ok in Hb as ->.
  apply bind_Ok_inv in Hrun as ([] & s2 & Hset & Hrun).
  destruct (setValues_Ok _ _ _ Hset) as (Hfb & (ll & Hll & Hcs2 & _) & _).
  unfold checkLogLevel, validateTLS, openLogFile, checkTLSPair, parseFriendbotURL,
    gets, mbind, M_bind, mret, M_ret, modify, stdLog_Fatal, stdLog_Fatalf, os_Exit
    in Hrun.
  rewrite Hll, Hfb in Hrun. cbn zeta in Hrun.
  repeat (case_match; simplify_eq/=).
  all: rewrite Hcs2, Hzero; unfold resolved, assemble, rateLimitOf; cbn [LogFile TLSCert TLSKey RateLimit FriendbotURL zeroConfig];
    rewrite !nonblank_or_empty; reflexivity.
Qed.

(** In [goodWorld], from the start state. *)
Lemma table_resolution_agrees_with_assembly_witness :
  exists s1,
    resolveAndAssemble goodWorld (startState quietLogger) = Ok tt s1
    /\ c s1 = config s1.
Proof.
  let r := eval vm_compute in (resolveAndAssemble goodWorld (startState quietLogger)) in
  match r with
  | Ok _ ?s1 =>
      exists s1;
      assert (Hrun : resolveAndAssemble goodWorld (startState quietLogger) = Ok tt s1)
        by (vm_compute; reflexivity);
      exact (conj Hrun
               (table_resolution_agrees_with_assembly goodWorld (startState quietLogger)
                  s1 eq_refl Hrun))
  end.
Defined.

(** ** The keys of the table and the assertions of the setters *)

Ltac each_descriptor H :=
  table_literal;
  repeat (apply elem_of_cons in H as [-> | H]);
  [.. | now apply elem_of_nil in H].

(** X2.  The pointers of the table have the types that the setters assert,
    but for one descriptor.  For every descriptor of the table other than
    [friendbot-url], setting its value never panics: it returns, or (for
    [log-level] and [log-file] only) ends the process with exit status 1.
    Every descriptor other than these three returns in every world. *)
Theorem table_keys_fit_their_setters (w : World) (s : State) (co : configOption)
    (Hin : co ∈ opts init)
    (Hname : name co ≠ "friendbot-url") :
  (forall h s', setValue w co s = Halt h s' -> h = Exit 1)
  /\ (name co ≠ "log-level" -> name co ≠ "log-file" ->
      exists s', setValue w co s = Ok tt s').
Proof.
  each_descriptor Hin.
  all: try (exfalso; apply Hname; reflexivity).
  all: unfold_setters; unfold mbind, M_bind, modify;
    cbn [customSetValue configKey flagDefault_ name].
  all: split;
    [ intros h s' E; repeat (case_match; simplify_eq/=); simplify_eq/=; reflexivity
    | intros H1 H2; try (exfalso; apply H1; reflexivity);
      try (exfalso; apply H2; reflexivity);
      repeat case_match; eexists; reflexivity ].
Qed.

(** The descriptor of [port], the fourth of the table, returns. *)
Lemma table_keys_fit_their_setters_witness :
  exists co,
    opts init !! 3%nat = Some co
    /\ name co = "port"
    /\ exists s', setValue goodWorld co (startState quietLogger) = Ok tt s'.
Proof.
  eexists. split; [vm_compute; reflexivity |]. split; [reflexivity |].
  refine (proj2 (table_keys_fit_their_setters goodWorld (startState quietLogger) _ _ _) _ _).
  - apply (list_elem_of_lookup_2 _ 3%nat). vm_compute. reflexivity.
  - discriminate.
  - discriminate.
  - discriminate.
Defined.

(** ** How [initConfig] ends *)

(** A computation that, when it ends the process, exits with status 1. *)
Definition exits1 {A} (m : M A) : Prop :=
  forall s h s', m s = Halt h s' -> h = Exit 1.

Lemma exits1_bind {A B} (m : M A) (f : A -> M B) :
  exits1 m -> (forall a, exits1 (f a)) -> exits1 (m ≫= f).
Proof.
  intros Hm Hf s h s'. unfold mbind, M_bind.
  destruct (m s) as [a s1|h1 s1] eqn:E.
  - apply Hf.
  - intros [= <- <-]. exact (Hm _ _ _ E).
Qed.

Lemma exits1_ret {A} (a : A) : exits1 (mret a).
Proof. intros s h s'. discriminate. Qed.

Lemma exits1_gets {A} (f : State -> A) : exits1 (gets f).
Proof. intros s h s'. discriminate. Qed.

Lemma exits1_modify (f : State -> State) : exits1 (modify f).
Proof. intros s h s'. discriminate. Qed.

Lemma exits1_Fatal {A} args : exits1 (@stdLog_Fatal A args).
Proof. intros s h s'. rewrite Fatal_run. now intros [= <- _]. Qed.

Lemma exits1_Fatalf {A} fmt args : exits1 (@stdLog_Fatalf A fmt args).
Proof. intros s h s'. rewrite Fatalf_run. now intros [= <- _]. Qed.

Lemma exits1_printFields : exits1 printFields.
Proof.
  intros s h s' E. destruct (printFields_run s) as (s1 & E1 & _).
  rewrite E1 in E. discriminate E.
Qed.

Lemma exits1_afterResolvers (w : World) : exits1 (afterResolvers w).
Proof.
  unfold afterResolvers.
  apply exits1_bind.
  { unfold checkLogLevel. destruct (logrus_ParseLevel w _).
    - apply exits1_bind; [apply exits1_modify | intros; apply exits1_ret].
    - apply exits1_Fatalf. }
  intros ll. apply exits1_bind.
  { apply exits1_bind; [apply exits1_gets |].
    intros t. unfold validateTLS. case_bool_decide;
      [apply exits1_Fatal | apply exits1_ret]. }
  intros _. apply exits1_bind.
  { unfold openLogFile. cbn zeta. apply exits1_bind; [| intros; apply exits1_ret].
    case_bool_decide; [| apply exits1_ret].
    destruct (os_OpenFile w _); [apply exits1_modify | apply exits1_Fatal]. }
  intros lf. apply exits1_bind.
  { unfold checkTLSPair. cbn zeta. apply exits1_bind; [| intros; apply exits1_ret].
    destruct (_ && _); [apply exits1_Fatal |].
    destruct (_ && _); [apply exits1_Fatal | apply exits1_ret]. }
  intros [cert key]. apply exits1_bind.
  { unfold parseFriendbotURL. cbn zeta. case_bool_decide; [| apply exits1_ret].
    destruct (url_Parse w _); [apply exits1_ret | apply exits1_Fatalf]. }
  intros u. cbn zeta. apply exits1_bind; [apply exits1_modify |].
  intros _. apply exits1_bind; [apply exits1_printFields |].
  intros _. apply exits1_Fatal.
Qed.

(** The loop over [setValue], when it ends the process: with exit status
    1, or in the type assertion of [setURL]. *)
Lemma setValues_Halt (w : World) (s s' : State) (h : halt) :
  setValues w s = Halt h s' ->
  h = Exit 1
  \/ (h = Panicked InterfaceConversion
      /\ viper_GetString w "friendbot-url" ≠ ""
      /\ exists u, url_Parse w (viper_GetString w "friendbot-url") = inl u).
Proof.
  intros E. unfold setValues in E. table_literal.
  cbn [forRange] in E. unfold_setters. unfold mbind, M_bind, modify in E.
  cbn [customSetValue configKey flagDefault_ name] in E.
  repeat (case_match; simplify_eq/=); simplify_eq/=.
  all: first [left; reflexivity | right].
  all: repeat match goal with
              | H : bool_decide _ = true |- _ => apply bool_decide_eq_true_1 in H
              end.
  all: split; [reflexivity | split; [assumption | eauto]].
Qed.

Lemma setValues_panics (w : World) (s : State) (u : URL) :
  viper_GetString w "friendbot-url" ≠ "" ->
  url_Parse w (viper_GetString w "friendbot-url") = inl u ->
  exists s', setValues w s = Halt (Panicked InterfaceConversion) s'.
Proof.
  intros Hne Hparse. unfold setValues. table_literal.
  cbn [forRange]. unfold_setters.
  cbn [customSetValue configKey flagDefault_ name].
  rewrite Hparse, (bool_decide_eq_true_2 _ Hne).
  case_bool_decide; eexists; reflexivity.
Qed.

Lemma initConfig_stages (w : World) (s : State) :
  initConfig w s
  = (checkRequired w;; checkMigrations w;; setValues w;; afterResolvers w) s.
Proof. reflexivity. Qed.

(** X3.  [initConfig] ends in one of two ways only: [os.Exit(1)], or the
    failed type assertion of [setURL].  It ends in the assertion exactly
    when no required option is blank, no migration is pending, and the
    text of [friendbot-url] is not blank and parses as a URL; in every
    other world it exits with status 1. *)
Theorem initConfig_ends (w : World) (s : State) :
  let up := schema_GetMigrationsUp w (viper_GetString w "db-url") in
  let down := schema_GetNumMigrationsDown w (viper_GetString w "db-url") in
  let friendbot := viper_GetString w "friendbot-url" in
  (exists s', initConfig w s = Halt (Exit 1) s'
              \/ initConfig w s = Halt (Panicked InterfaceConversion) s')
  /\ ((exists s', initConfig w s = Halt (Panicked InterfaceConversion) s')
      <-> List.find (blank w) (opts init) = None
          /\ up = [] /\ down <= 0
          /\ friendbot ≠ "" /\ exists u, url_Parse w friendbot = inl u).
Proof.
  intros up down friendbot.
  pose proof (forRange_require w (opts init) s) as Hreq.
  fold (checkRequired w) in Hreq.
  pose proof (checkMigrations_run w s) as Hgate. cbn zeta in Hgate.
  fold up down in Hgate.
  rewrite initConfig_stages.
  destruct (List.find (blank w) (opts init)) as [co|].
  { rewrite (bind_Halt _ _ _ _ _ Hreq). split; [eauto |].
    split; [intros (s' & [=]) | intros ([=] & _)]. }
  rewrite (bind_Ok _ _ _ _ _ Hreq).
  destruct (bool_decide (Z.of_nat (length up) > 0)) eqn:Hup.
  { rewrite (bind_Halt _ _ _ _ _ Hgate). split; [eauto |].
    apply bool_decide_eq_true_1 in Hup.
    split; [intros (s' & [=]) | intros (_ & Hnil & _)].
    rewrite Hnil in Hup. simpl in Hup. lia. }
  apply bool_decide_eq_false_1 in Hup.
  assert (Hnil : up = []) by (destruct up; [reflexivity | simpl in Hup; lia]).
  destruct (bool_decide (down > 0)) eqn:Hdown.
  { rewrite (bind_Halt _ _ _ _ _ Hgate). split; [eauto |].
    apply bool_decide_eq_true_1 in Hdown.
    split; [intros (s' & [=]) | intros (_ & _ & Hle & _); lia]. }
  apply bool_decide_eq_false_1 in Hdown.
  rewrite (bind_Ok _ _ _ _ _ Hgate).
  destruct (setValues w s) as [[] s2|h s2] eqn:Hset.
  - rewrite (bind_Ok _ _ _ _ _ Hset).
    destruct (setValues_Ok _ _ _ Hset) as (Hblank & _).
    destruct (afterResolvers w s2) as [[] s3|h s3] eqn:Hafter.
    { destruct (initConfig_halts w s) as (h & s' & E).
      rewrite initConfig_stages in E.
      rewrite (bind_Ok _ _ _ _ _ Hreq), (bind_Ok _ _ _ _ _ Hgate),
        (bind_Ok _ _ _ _ _ Hset), Hafter in E. discriminate E. }
    rewrite (exits1_afterResolvers w _ _ _ Hafter).
    split; [eauto |].
    split; [intros (s' & [=]) | intros (_ & _ & _ & Hne & _)].
    destruct (Hne Hblank).
  - rewrite (bind_Halt _ _ _ _ _ Hset).
    destruct (setValues_Halt _ _ _ _ Hset) as [-> | (-> & Hne & u & Hu)].
    + split; [eauto |].
      split; [intros (s' & [=]) | intros (_ & _ & _ & Hne & u & Hu)].
      destruct (setValues_panics w s u Hne Hu) as (s' & E).
      rewrite E in Hset. discriminate Hset.
    + split; [eauto |].
      split; [intros _ | eauto].
      split_and!; [reflexivity | assumption | lia | assumption | eauto].
Qed.

(** ** Durations *)

Lemma wrap_int64_small (z : Z) : - 2 ^ 63 <= z < 2 ^ 63 -> wrap_int64 z = z.
Proof. intros H. unfold wrap_int64. rewrite Z.mod_small; lia. Qed.

(** X4.  [setDuration] reads its option as a number [n] of seconds.  When
    [n] is between -9223372036 and 9223372036 the duration stored is
    exactly [n] seconds ([n * 10^9] nanoseconds, so 0 gives the zero
    duration), and the literal of [initConfig] computes the same durations
    for [sse-update-frequency] and [connection-timeout].  The bound is
    tight: at 9223372037 seconds the 64-bit product wraps to a negative
    duration. *)
Theorem setDuration_seconds (w : World) (co : configOption) (s : State)
    (f : durationField)
    (Hkey : configKey co = Some (PDuration f))
    (Hrange : -9223372036 <= viper_GetInt w (name co) <= 9223372036) :
  let n := viper_GetInt w (name co) in
  setDuration w co s = Ok tt (set_c (storeDuration f (n * Second)) s)
  /\ (n * Second) / Second = n
  /\ (n = 0 -> setDuration w co s = Ok tt (set_c (storeDuration f 0) s))
  /\ (forall ll lf cert key u q,
        name co = "sse-update-frequency" ->
        SSEUpdateFrequency (assemble w ll lf cert key u q) = n * Second)
  /\ (forall ll lf cert key u q,
        name co = "connection-timeout" ->
        ConnectionTimeout (assemble w ll lf cert key u q) = n * Second)
  /\ wrap_int64 (9223372037 * Second) = -9223372036709551616.
Proof.
  intros n. subst n. unfold Second in *.
  assert (Hw : wrap_int64 (viper_GetInt w (name co) * 1000000000)
               = viper_GetInt w (name co) * 1000000000)
    by (apply wrap_int64_small; lia).
  assert (E : setDuration w co s
              = Ok tt (set_c (storeDuration f (viper_GetInt w (name co) * 1000000000)) s)).
  { unfold setDuration. rewrite Hkey. unfold Second. cbn. now rewrite Hw. }
  split; [exact E |].
  split; [apply Z.div_mul; lia |].
  split; [intros H0; now rewrite E, H0 |].
  split; [intros ? ? ? ? ? ? Hn; cbn; unfold Second; now rewrite <- Hn, Hw |].
  split; [intros ? ? ? ? ? ? Hn; cbn; unfold Second; now rewrite <- Hn, Hw |].
  reflexivity.
Qed.

(** Five seconds for [sse-update-frequency], the default of the table. *)
Lemma setDuration_seconds_witness :
  setDuration goodWorld
    {| name := "sse-update-frequency"; envVar := "SSE_UPDATE_FREQUENCY";
       flagDefault_ := DInt 5; required := false; usage := "";
       customSetValue := Some SetDuration;
       configKey := Some (PDuration fSSEUpdateFrequency) |}
    (startState quietLogger)
  = Ok tt (set_c (set_SSEUpdateFrequency 5000000000) (startState quietLogger)).
Proof.
  refine (proj1 (setDuration_seconds goodWorld
            {| name := "sse-update-frequency"; envVar := "SSE_UPDATE_FREQUENCY";
               flagDefault_ := DInt 5; required := false; usage := "";
               customSetValue := Some SetDuration;
               configKey := Some (PDuration fSSEUpdateFrequency) |}
            (startState quietLogger) fSSEUpdateFrequency eq_refl _)).
  simpl. lia.
Defined.

(** ** The configuration that is assembled *)

(** A run that reaches the assignment of [config]: what the world must
    be, and what has been assembled. *)
Lemma resolveAndAssemble_Ok (w : World) (s s1 : State) :
  resolveAndAssemble w s = Ok tt s1 ->
  List.find (blank w) (opts init) = None
  /\ viper_GetString w "friendbot-url" = ""
  /\ ~ halfConfigured w
  /\ (exists ll,
        logrus_ParseLevel w (viper_GetString w "log-level") = inl ll
        /\ config s1 =
           assemble w ll (viper_GetString w "log-file")
             (viper_GetString w "tls-cert") (viper_GetString w "tls-key") None
             (rateLimitOf (viper_GetInt w "per-hour-rate-limit"))
        /\ logger_Level (DefaultLogger s1) = ll)
  /\ (viper_GetString w "log-file" = ""
      /\ logger_Out (DefaultLogger s1) = logger_Out (DefaultLogger s)
      \/ viper_GetString w "log-file" ≠ "" /\
         exists f, os_OpenFile w (viper_GetString w "log-file") = inl f
                   /\ logger_Out (DefaultLogger s1) = Some f)
  /\ stdLog s1 = stdLog s.
Proof.
  intros Hrun. unfold resolveAndAssemble in Hrun.
  apply bind_Ok_inv in Hrun as ([] & sa & Ha & Hrun).
  assert (Hfind : List.find (blank w) (opts init) = None).
  { unfold checkRequired in Ha. rewrite forRange_require in Ha.
    destruct (List.find _ _); [discriminate Ha | reflexivity]. }
  apply checkRequired_Ok in Ha as ->.
  apply bind_Ok_inv in Hrun as ([] & sb & Hb & Hrun).
  apply checkMigrations_Ok in Hb as ->.
  apply bind_Ok_inv in Hrun as ([] & s2 & Hset & Hrun).
  destruct (setValues_Ok _ _ _ Hset)
    as (Hfb & (ll & Hll & _ & Hlevel) & Hfile & _ & _ & Hlog & _).
  split; [exact Hfind |]. split; [exact Hfb |].
  apply bind_Ok_inv in Hrun as (ll' & s3 & Hcheck & Hrun).
  assert (ll' = ll) as ->.
  { unfold checkLogLevel in Hcheck. rewrite Hll in Hcheck.
    cbn in Hcheck. now injection Hcheck as <- _. }
  apply checkLogLevel_Ok in Hcheck as ->.
  apply bind_Ok_inv in Hrun as ([] & s4 & Hv & Hrun).
  assert (s4 = set_DefaultLogger (with_Level ll) s2) as ->.
  { unfold mbind, M_bind, gets in Hv. rewrite validateTLS_run in Hv.
    case_bool_decide; [discriminate Hv | now injection Hv as <-]. }
  apply bind_Ok_inv in Hrun as (lf & s5 & Hopen & Hrun).
  apply bind_Ok_inv in Hrun as ([cert key] & s6 & Hpair & Hrun).
  assert (Hhalf : ~ halfConfigured w).
  { intros Hhalf. apply (checkTLSPair_halts_iff w s5) in Hhalf as (h & s' & E).
    rewrite E in Hpair. discriminate Hpair. }
  rewrite (checkTLSPair_passes w s5 Hhalf) in Hpair.
  injection Hpair as <- <- <-.
  split; [exact Hhalf |].
  unfold parseFriendbotURL, mbind, M_bind, mret, M_ret, modify in Hrun.
  rewrite Hfb in Hrun. cbn in Hrun. injection Hrun as <-.
  unfold openLogFile, mbind, M_bind, mret, M_ret, modify, stdLog_Fatal, os_Exit in Hopen.
  cbn zeta in Hopen.
  destruct Hfile as [(Hlf & Hout) | (Hlf & f & Hf & Hout)].
  - rewrite Hlf in Hopen. cbn in Hopen. injection Hopen as <- <-.
    split; [exists ll; split; [exact Hll | split; [now rewrite Hlf | reflexivity]] |].
    split; [left; split; [exact Hlf | exact Hout] | exact Hlog].
  - rewrite (bool_decide_eq_true_2 _ Hlf), Hf in Hopen.
    injection Hopen as <- <-.
    split; [exists ll; split; [exact Hll | split; reflexivity] |].
    split; [right; split; [exact Hlf | exists f; split; [exact Hf | reflexivity]]
           | exact Hlog].
Qed.

(** The required options of the table are four: none of them is blank
    exactly when [require] refuses no descriptor. *)
Lemma required_set_of_table (w : World) :
  List.find (blank w) (opts init) = None
  <-> viper_GetString w "db-url" ≠ ""
      /\ viper_GetString w "stellar-core-db-url" ≠ ""
      /\ viper_GetString w "stellar-core-url" ≠ ""
      /\ viper_GetString w "network-passphrase" ≠ "".
Proof.
  table_literal. cbn [List.find blank required name andb].
  repeat case_bool_decide; split; intros Hx; try discriminate Hx; try reflexivity;
    try tauto.
Qed.

(** X5.  Every configuration that [initConfig] assembles is sound: its
    four required fields are not blank; [TLSCert] and [TLSKey] are both
    blank or both given; its rate limit is nil or has burst 100 and a
    rate that is not zero; its unsigned fields lie in [0, 2^64); and the
    default logger has the level of the configuration and, when the
    configuration names a log file, that file, opened, as its output. *)
Theorem assembled_config_is_sound (w : World) (s s1 : State)
    (Hrun : resolveAndAssemble w s = Ok tt s1) :
  let k := config s1 in
  (DatabaseURL k ≠ "" /\ StellarCoreDatabaseURL k ≠ ""
   /\ StellarCoreURL k ≠ "" /\ NetworkPassphrase k ≠ "")
  /\ (TLSCert k = "" <-> TLSKey k = "")
  /\ (RateLimit k = None
      \/ exists n, n ≠ 0 /\ RateLimit k = Some {| MaxRate := PerHour n; MaxBurst := 100 |})
  /\ (0 <= MaxPathLength k < 2 ^ 64
      /\ 0 <= HistoryRetentionCount k < 2 ^ 64
      /\ 0 <= StaleThreshold k < 2 ^ 64)
  /\ logger_Level (DefaultLogger s1) = LogLevel k
  /\ (LogFile k ≠ "" ->
        exists f, os_OpenFile w (LogFile k) = inl f
                  /\ logger_Out (DefaultLogger s1) = Some f)
  /\ (LogFile k = "" ->
        logger_Out (DefaultLogger s1) = logger_Out (DefaultLogger s)).
Proof.
  intros k. subst k.
  destruct (resolveAndAssemble_Ok _ _ _ Hrun)
    as (Hfind & _ & Hhalf & (ll & _ & -> & Hlevel) & Hfile & _).
  apply required_set_of_table in Hfind.
  cbn [assemble DatabaseURL StellarCoreDatabaseURL StellarCoreURL NetworkPassphrase
       TLSCert TLSKey RateLimit MaxPathLength HistoryRetentionCount StaleThreshold
       LogLevel LogFile].
  split; [exact Hfind |].
  split.
  { unfold halfConfigured in Hhalf.
    destruct (decide (viper_GetString w "tls-cert" = ""));
      destruct (decide (viper_GetString w "tls-key" = "")); tauto. }
  split.
  { unfold rateLimitOf. case_bool_decide; [right; eauto | left; reflexivity]. }
  split; [split_and!; apply uint_of_int_range |].
  split; [exact Hlevel |].
  destruct Hfile as [(Hlf & Hout) | (Hlf & f & Hf & Hout)].
  - split; [intros Hne; destruct (Hne Hlf) | intros _; exact Hout].
  - split; [intros _; eauto | intros Hb; destruct (Hlf Hb)].
Qed.

(** In [goodWorld], from the start state. *)
Lemma assembled_config_is_sound_witness :
  exists s1,
    resolveAndAssemble goodWorld (startState quietLogger) = Ok tt s1
    /\ (TLSCert (config s1) = "" <-> TLSKey (config s1) = "")
    /\ logger_Level (DefaultLogger s1) = LogLevel (config s1).
Proof.
  let r := eval vm_compute in (resolveAndAssemble goodWorld (startState quietLogger)) in
  match r with
  | Ok _ ?s1 =>
      exists s1;
      assert (Hrun : resolveAndAssemble goodWorld (startState quietLogger) = Ok tt s1)
        by (vm_compute; reflexivity);
      pose proof (assembled_config_is_sound goodWorld (startState quietLogger) s1 Hrun)
        as (_ & Htls & _ & _ & Hlevel & _);
      exact (conj Hrun (conj Htls Hlevel))
  end.
Defined.

(** X6.  Which options the table requires, and what is reported.  The
    check of the required options passes exactly when [db-url],
    [stellar-core-db-url], [stellar-core-url] and [network-passphrase]
    are all given; otherwise it reports the first of them, in this order,
    that is blank, naming its flag and its environment variable (the one
    of the table for the first two, the one [init] derives for the other
    two), and exits with status 1. *)
Theorem checkRequired_table (w : World) (s : State) :
  let line n e := Printf requireFormat [AString n; AString n; AString e] in
  let db := viper_GetString w "db-url" in
  let coredb := viper_GetString w "stellar-core-db-url" in
  let core := viper_GetString w "stellar-core-url" in
  let pass := viper_GetString w "network-passphrase" in
  (checkRequired w s = Ok tt s
     <-> db ≠ "" /\ coredb ≠ "" /\ core ≠ "" /\ pass ≠ "")
  /\ (db = "" ->
      checkRequired w s = Halt (Exit 1) (write_stdLog (line "db-url" "DATABASE_URL") s))
  /\ (db ≠ "" -> coredb = "" ->
      checkRequired w s =
        Halt (Exit 1)
          (write_stdLog (line "stellar-core-db-url" "STELLAR_CORE_DATABASE_URL") s))
  /\ (db ≠ "" -> coredb ≠ "" -> core = "" ->
      checkRequired w s =
        Halt (Exit 1) (write_stdLog (line "stellar-core-url" "STELLAR_CORE_URL") s))
  /\ (db ≠ "" -> coredb ≠ "" -> core ≠ "" -> pass = "" ->
      checkRequired w s =
        Halt (Exit 1) (write_stdLog (line "network-passphrase" "NETWORK_PASSPHRASE") s)).
Proof.
  intros line db coredb core pass.
  unfold checkRequired. rewrite forRange_require.
  split.
  { unfold db, coredb, core, pass. rewrite <- required_set_of_table.
    destruct (List.find _ _); split; intros Hx; try discriminate Hx; reflexivity. }
  table_literal. cbn [List.find blank required name andb].
  fold db coredb core pass.
  split_and!; intros; repeat case_bool_decide;
    first [reflexivity | contradiction].
Qed.

(** ** Registration *)

(** A descriptor as [init] leaves it, and the flag [init] declares for
    it. *)
Definition fillEnvVar (co : configOption) : configOption :=
  if bool_decide (envVar co = "") then with_envVar (KebabToConstantCase (name co)) co
  else co.

Definition flagOf (co : configOption) : pflag.Flag :=
  {| pflag.DefValue := flagDefault_ co; pflag.Usage := usage co; pflag.Changed := None |}.

Lemma initOption_eq (co : configOption) (v : viper.t) (flags : pflag.FlagSet) :
  initOption co v flags =
    (fillEnvVar co,
     if bool_decide (envVar co = "") then
       viper.BindEnv (name co) (KebabToConstantCase (name co)) v
     else v,
     <[name co := flagOf co]> flags).
Proof.
  unfold initOption, fillEnvVar, setFlag, pflag.declare, flagOf.
  case_bool_decide; cbn; destruct (flagDefault_ co); reflexivity.
Qed.

Lemma initOptions_opts (l : list configOption) (v : viper.t) (flags : pflag.FlagSet) :
  (initOptions l v flags).1.1 = map fillEnvVar l.
Proof.
  revert v flags. induction l as [|co l IH]; intros v flags; [reflexivity |].
  cbn [initOptions map]. rewrite initOption_eq.
  specialize (IH (if bool_decide (envVar co = "") then
                    viper.BindEnv (name co) (KebabToConstantCase (name co)) v
                  else v)
                 (<[name co := flagOf co]> flags)).
  destruct (initOptions l _ _) as [[rest v''] flags'']. cbn in *. now rewrite IH.
Qed.

Lemma initOptions_flags (l : list configOption) (v : viper.t) (flags : pflag.FlagSet) :
  (initOptions l v flags).2 = foldl (λ acc co, <[name co := flagOf co]> acc) flags l.
Proof.
  revert v flags. induction l as [|co l IH]; intros v flags; [reflexivity |].
  cbn [initOptions foldl]. rewrite initOption_eq.
  specialize (IH (if bool_decide (envVar co = "") then
                    viper.BindEnv (name co) (KebabToConstantCase (name co)) v
                  else v)
                 (<[name co := flagOf co]> flags)).
  destruct (initOptions l _ _) as [[rest v''] flags'']. cbn in *. exact IH.
Qed.

Lemma declared_flags_lookup (l : list configOption) (flags : pflag.FlagSet) :
  NoDup (map name l) ->
  (forall co, co ∈ l ->
     foldl (λ acc co, <[name co := flagOf co]> acc) flags l !! name co = Some (flagOf co))
  /\ (forall k, k ∉ map name l ->
        foldl (λ acc co, <[name co := flagOf co]> acc) flags l !! k = flags !! k).
Proof.
  revert flags. induction l as [|co l IH]; intros flags Hnd.
  - split; [intros co H; now apply elem_of_nil in H | reflexivity].
  - cbn [map] in Hnd. apply NoDup_cons in Hnd as [Hfresh Hnd].
    destruct (IH (<[name co := flagOf co]> flags) Hnd) as [IHin IHout].
    cbn [foldl]. split.
    + intros co' [-> | Hin]%elem_of_cons.
      * rewrite (IHout _ Hfresh). apply lookup_insert_eq.
      * now apply IHin.
    + intros k Hk. cbn [map] in Hk. apply not_elem_of_cons in Hk as [Hne Hk].
      rewrite (IHout _ Hk). now apply lookup_insert_ne.
Qed.

Lemma initOptions_registry (l : list configOption) (v : viper.t) (flags : pflag.FlagSet) :
  viper.env (initOptions l v flags).1.2
  = foldl (λ acc co, if bool_decide (envVar co = "")
                     then <[name co := KebabToConstantCase (name co)]> acc else acc)
      (viper.env v) l
  /\ viper.defaults (initOptions l v flags).1.2 = viper.defaults v
  /\ viper.pflags (initOptions l v flags).1.2 = viper.pflags v.
Proof.
  revert v flags. induction l as [|co l IH]; intros v flags; [now split_and! |].
  cbn [initOptions foldl]. rewrite initOption_eq.
  specialize (IH (if bool_decide (envVar co = "") then
                    viper.BindEnv (name co) (KebabToConstantCase (name co)) v
                  else v)
                 (<[name co := flagOf co]> flags)).
  destruct (initOptions l _ _) as [[rest v''] flags'']. cbn in *.
  destruct IH as (-> & -> & ->). case_bool_decide; now split_and!.
Qed.

Lemma derived_names_lookup (l : list configOption) (e : gmap string string) :
  NoDup (map name l) ->
  (forall co, co ∈ l -> envVar co = "" ->
     foldl (λ acc co, if bool_decide (envVar co = "")
                      then <[name co := KebabToConstantCase (name co)]> acc else acc)
       e l !! name co = Some (KebabToConstantCase (name co)))
  /\ (forall k, k ∉ map name l ->
        foldl (λ acc co, if bool_decide (envVar co = "")
                         then <[name co := KebabToConstantCase (name co)]> acc else acc)
          e l !! k = e !! k).
Proof.
  revert e. induction l as [|co l IH]; intros e Hnd.
  - split; [intros co H; now apply elem_of_nil in H | reflexivity].
  - cbn [map] in Hnd. apply NoDup_cons in Hnd as [Hfresh Hnd].
    cbn [foldl]. split.
    + intros co' [-> | Hin]%elem_of_cons Hblank.
      * rewrite (proj2 (IH _ Hnd) _ Hfresh).
        rewrite (bool_decide_eq_true_2 _ Hblank). apply lookup_insert_eq.
      * now apply (proj1 (IH _ Hnd)).
    + intros k Hk. cbn [map] in Hk. apply not_elem_of_cons in Hk as [Hne Hk].
      rewrite (proj2 (IH _ Hnd) _ Hk).
      case_bool_decide; [now apply lookup_insert_ne | reflexivity].
Qed.

Lemma table_names_NoDup : NoDup (map name configOpts).
Proof. apply (bool_decide_unpack _). vm_compute. reflexivity. Qed.

(** [init], in terms of the table. *)
Lemma init_unfolded :
  opts init = map fillEnvVar configOpts
  /\ rootFlags init = foldl (λ acc co, <[name co := flagOf co]> acc) ∅ configOpts
  /\ viper.pflags (registry init) = rootFlags init
  /\ viper.env (registry init)
     = foldl (λ acc co, if bool_decide (envVar co = "")
                        then <[name co := KebabToConstantCase (name co)]> acc else acc)
         ∅ configOpts
  /\ viper.defaults (registry init)
     = <["history-retention-count" := DInt 0]> (<["port" := DInt 8000]> ∅).
Proof.
  unfold init.
  pose proof (initOptions_opts configOpts
    (viper.SetDefault "history-retention-count" (DInt 0)
       (viper.SetDefault "port" (DInt 8000) viper.New)) ∅) as Hopts.
  pose proof (initOptions_flags configOpts
    (viper.SetDefault "history-retention-count" (DInt 0)
       (viper.SetDefault "port" (DInt 8000) viper.New)) ∅) as Hflags.
  pose proof (initOptions_registry configOpts
    (viper.SetDefault "history-retention-count" (DInt 0)
       (viper.SetDefault "port" (DInt 8000) viper.New)) ∅) as (Henv & Hdef & Hpf).
  destruct (initOptions configOpts _ ∅) as [[l' v'] flags'].
  cbn [fst snd opts registry rootFlags] in *. subst l' flags'.
  split_and!; [reflexivity | reflexivity | | exact Henv | exact Hdef].
  cbn. rewrite Hpf. cbn. apply map_eq. intros k.
  rewrite lookup_union. rewrite lookup_empty. now destruct (_ !! k).
Qed.

(** X7.  What [init] registers.  The table keeps its order and every
    field of every descriptor, but for a blank [envVar], which becomes the
    upper snake-case form of the name; so after [init] every descriptor
    names an environment variable.  Every descriptor has one persistent
    flag under its own name, with its default and its usage and not yet
    changed, bound in viper too, and there is no other flag.  Every
    descriptor that the table gives no [envVar] is bound in viper to the
    variable derived from its name. *)
Theorem init_registers_every_descriptor :
  opts init = map fillEnvVar configOpts
  /\ (forall co, co ∈ opts init -> envVar co ≠ "")
  /\ (forall co, co ∈ configOpts ->
        rootFlags init !! name co = Some (flagOf co)
        /\ viper.pflags (registry init) !! name co = Some (flagOf co))
  /\ (forall k, k ∉ map name configOpts -> rootFlags init !! k = None)
  /\ (forall co, co ∈ configOpts -> envVar co = "" ->
        viper.env (registry init) !! name co = Some (KebabToConstantCase (name co))).
Proof.
  pose proof table_names_NoDup as Hnd.
  destruct init_unfolded as (Hopts & Hflags & Hpf & Henv & _).
  destruct (declared_flags_lookup configOpts ∅ Hnd) as [Hin Hout].
  split; [exact Hopts |].
  split.
  { apply Forall_forall. apply (bool_decide_unpack _). vm_compute. reflexivity. }
  split.
  { intros co Hco. rewrite Hpf, Hflags. split; now apply Hin. }
  split.
  { intros k Hk. rewrite Hflags, (Hout _ Hk). apply lookup_empty. }
  intros co Hco Hblank. rewrite Henv.
  now apply (proj1 (derived_names_lookup configOpts _ Hnd)).
Qed.

(** ** Environment, default *)

(** The lookup of an option for which no flag was given, for any
    registry. *)
Lemma GetString_unchanged (v : viper.t) (environ : gmap string string) (k : string)
    (f : pflag.Flag) :
  viper.pflags v !! k = Some f -> pflag.Changed f = None ->
  viper.GetString v environ k =
    from_option cast_ToString ""
      match viper.env v !! k ≫= viper.getEnv environ with
      | Some val => Some (DString val)
      | None =>
          match viper.defaults v !! k with
          | Some d => Some d
          | None => Some (pflag.DefValue f)
          end
      end.
Proof.
  intros Hf Hc. unfold viper.GetString, viper.find. rewrite Hf.
  destruct f as [d u ch]. cbn in Hc. subst ch. reflexivity.
Qed.

(** X8.  Environment over default.  Under viper's lookup order, in the
    registry that [init] builds (no flag given on the command line yet),
    for every descriptor to which the table gives no [envVar] and every
    environment: the option has the text of the environment variable
    derived from its name when that variable is set and not empty, and the
    text of its default otherwise. *)
Theorem environment_over_default (co : configOption)
    (environ : gmap string string)
    (Hin : co ∈ configOpts)
    (Hblank : envVar co = "") :
  (forall e, environ !! KebabToConstantCase (name co) = Some e -> e ≠ "" ->
     viper.GetString (registry init) environ (name co) = e)
  /\ (viper.getEnv environ (KebabToConstantCase (name co)) = None ->
      viper.GetString (registry init) environ (name co)
      = cast_ToString (flagDefault_ co)).
Proof.
  pose proof table_names_NoDup as Hnd.
  destruct init_unfolded as (_ & Hflags & Hpf & Henv & Hdef).
  assert (Hflag : viper.pflags (registry init) !! name co = Some (flagOf co)).
  { rewrite Hpf, Hflags.
    exact (proj1 (declared_flags_lookup configOpts ∅ Hnd) co Hin). }
  rewrite (GetString_unchanged _ _ _ _ Hflag eq_refl).
  rewrite Henv, (proj1 (derived_names_lookup configOpts ∅ Hnd) co Hin Hblank).
  cbn [mbind option_bind]. split.
  - intros e He Hne. unfold viper.getEnv. rewrite He.
    now rewrite (bool_decide_eq_false_2 _ Hne).
  - intros He. rewrite He, Hdef.
    clear -Hin. revert Hin. unfold configOpts.
    intros Hin. repeat (apply elem_of_cons in Hin as [-> | Hin]);
      [.. | now apply elem_of_nil in Hin]; vm_compute; reflexivity.
Qed.

(** [stellar-core-url] takes its value from [STELLAR_CORE_URL]. *)
Lemma environment_over_default_witness :
  viper.GetString (registry init)
    {[ "STELLAR_CORE_URL" := "http://env:11626" ]} "stellar-core-url"
  = "http://env:11626".
Proof.
  refine (proj1 (environment_over_default
            {| name := "stellar-core-url"; envVar := "";
               configKey := Some (PString fStellarCoreURL);
               flagDefault_ := DString ""; required := true; customSetValue := None;
               usage := "stellar-core to connect with (for http commands)" |}
            {[ "STELLAR_CORE_URL" := "http://env:11626" ]} _ eq_refl) _ _ _).
  - apply (list_elem_of_lookup_2 _ 2%nat). reflexivity.
  - reflexivity.
  - discriminate.
Defined.

(** ** The resolvers that can fail *)

Ltac run_table :=
  unfold setValues; table_literal; cbn [forRange]; unfold_setters;
  unfold mbind, M_bind, modify;
  cbn [customSetValue configKey flagDefault_ name].

(** X9.  Which resolver ends the loop over the table, and how, in every
    world.  A [friendbot-url] that is not blank always ends the loop: with
    the line about the URL and the error and exit status 1 when it does
    not parse, and in the failed type assertion of [setURL], with no line
    written, when it parses; [log-level] and [log-file] are not looked at
    then.  With [friendbot-url] blank: a [log-level] that does not parse
    ends the process with the line about the level; a level that parses
    and a [log-file] that is not blank and cannot be opened end it with
    [Failed to log to file], the logger having the new level already; in
    both cases exactly one line is written and the exit status is 1.  With
    [friendbot-url] blank, a level that parses and a log file that is
    blank or opens, the loop returns. *)
Theorem resolver_failures_in_table_order (w : World) (s : State) :
  let fb := viper_GetString w "friendbot-url" in
  let lvl := viper_GetString w "log-level" in
  let lf := viper_GetString w "log-file" in
  (forall e, fb ≠ "" -> url_Parse w fb = inr e ->
     exists s', setValues w s = Halt (Exit 1) s'
                /\ stdLog s' = (stdLog s
                     ++ [Printf "Unable to parse URL: %s/%v" [AString fb; AError e]])%list)
  /\ (forall u, fb ≠ "" -> url_Parse w fb = inl u ->
        exists s', setValues w s = Halt (Panicked InterfaceConversion) s'
                   /\ stdLog s' = stdLog s)
  /\ (forall e, fb = "" -> logrus_ParseLevel w lvl = inr e ->
        exists s', setValues w s = Halt (Exit 1) s'
                   /\ stdLog s' = (stdLog s
                        ++ [Printf "Could not parse log-level: %v" [AString lvl]])%list)
  /\ (forall ll e, fb = "" -> logrus_ParseLevel w lvl = inl ll ->
        lf ≠ "" -> os_OpenFile w lf = inr e ->
        exists s', setValues w s = Halt (Exit 1) s'
                   /\ stdLog s' = (stdLog s ++ [Print [AString "Failed to log to file"]])%list
                   /\ logger_Level (DefaultLogger s') = ll)
  /\ (forall ll, fb = "" -> logrus_ParseLevel w lvl = inl ll ->
        (lf = "" \/ exists f, os_OpenFile w lf = inl f) ->
        exists s', setValues w s = Ok tt s').
Proof.
  intros fb lvl lf. subst fb lvl lf.
  split_and!.
  - intros e Hne Hparse. run_table.
    rewrite Hparse, (bool_decide_eq_true_2 _ Hne).
    repeat case_bool_decide; try congruence; eexists; split; reflexivity.
  - intros u Hne Hparse. run_table.
    rewrite Hparse, (bool_decide_eq_true_2 _ Hne).
    repeat case_bool_decide; try congruence; eexists; split; reflexivity.
  - intros e Hblank Hlevel. run_table.
    rewrite Hlevel, Hblank. cbn.
    repeat case_bool_decide; try congruence; eexists; split; reflexivity.
  - intros ll e Hblank Hlevel Hne Hopen. run_table.
    rewrite Hlevel, Hopen, Hblank, (bool_decide_eq_true_2 _ Hne). cbn.
    repeat case_bool_decide; try congruence; eexists; split_and!; reflexivity.
  - intros ll Hblank Hlevel [Hlf | (f & Hf)]; run_table.
    + rewrite Hlevel, Hblank, Hlf. cbn.
      repeat case_bool_decide; try congruence; eexists; reflexivity.
    + rewrite Hlevel, Hf, Hblank. cbn.
      repeat case_bool_decide; try congruence; eexists; reflexivity.
Qed.
